(** * Control manifolds of OMPL: naming registry, base contract, compound manifold

    A shallow embedding of [src/ompl/control/src/ControlManifold.cpp].

    - Member functions that change memory are functions in a state-and-exception
      monad [M S]: a call returns normally ([Ret]), leaves through a C++
      exception ([Throw]), or has undefined behaviour ([Undef]: a bad
      [static_cast], an index past the end of an array).
    - [const] member functions of sub-manifolds read the world and return.
    - [unsigned int] is [N] with the wrap-around modulo 2^32 written out.
    - A C++ namespace or class [X] is a [Module X]; [X::f] is [X.f]. *)

From Stdlib Require Import ZArith NArith String List Lia.
From stdpp Require Import base option list strings gmap.

Local Open Scope string_scope.

Set Warnings "-register-all".

(** ** Exceptions, outcomes and the monad *)

(** [ompl::Exception], thrown with a message. *)
Inductive Exception : Type := exception (what : string).

Global Instance Exception_eq_dec : EqDecision Exception.
Proof. solve_decision. Defined.

Inductive outcome (S A : Type) : Type :=
| Ret (a : A) (s : S)
| Throw (e : Exception) (s : S)
| Undef.
Arguments Ret {S A} a s.
Arguments Throw {S A} e s.
Arguments Undef {S A}.

Definition M (S A : Type) : Type := S → outcome S A.

Global Instance M_ret {S} : MRet (M S) := λ A a s, Ret a s.

Global Instance M_bind {S} : MBind (M S) :=
  λ A B k m s, match m s with
               | Ret a s' => k a s'
               | Throw e s' => Throw e s'
               | Undef => Undef
               end.

Definition throw {S A} (e : Exception) : M S A := λ s, Throw e s.

Definition undefined {S A} : M S A := λ _, Undef.

(** [arr[i]] on an array or a [std::vector]: past the end it is undefined. *)
Definition at_index {S A} (arr : list A) (i : N) : M S A :=
  match arr !! N.to_nat i with
  | Some x => mret x
  | None => undefined
  end.

(** [for (unsigned int i = start ; i < start + n ; ++i) body(i);] with [n]
    iterations left.  The counter stays below the 32-bit bound of the loop, so
    [++i] never wraps. *)
Fixpoint for_loop {S} (n : nat) (i : N) (body : N → M S unit) : M S unit :=
  match n with
  | O => mret tt
  | Datatypes.S n' => body i;; for_loop n' (i + 1)%N body
  end.

(** ** Machine integers *)

Definition UINT_MAX : N := 4294967295.

(** Conversion to [unsigned int]. *)
Definition u32 (x : N) : N := x mod (UINT_MAX + 1).

(** ** The error kinds of the specification, as the messages the code throws *)

Definition DuplicateNameError (name : string) : Exception :=
  exception ("Control manifold name '" ++ name ++ "' already in use. Manifold names must be unique.").

Definition UnknownNameError (name : string) : Exception :=
  exception ("No control manifold with name '" ++ name ++ "' exists.").

Definition UnconfiguredPropagationError : Exception :=
  exception "State propagation routine is not set for control manifold. Either set this routine or provide a different implementation in an inherited class.".

Definition LockedManifoldError : Exception :=
  exception "This manifold is locked. No further components can be added".

(** ** The name registry *)

(** [namesList(op, name1, name2)].  The function-local [static std::set used]
    is the state; the mutex makes each call one atomic step, which is what a
    function on the set is. *)
Definition namesList (op : Z) (name1 : string) (name2 : string) : M (gset string) unit :=
  λ used,
    if (op =? 1)%Z then
      if decide (name1 ∈ used) then Throw (DuplicateNameError name1) used
      else Ret tt ({[name1]} ∪ used)
    else if (op =? 2)%Z then
      if decide (name1 ∈ used) then Ret tt (used ∖ {[name1]})
      else Throw (UnknownNameError name1) used
    else if (op =? 3)%Z && negb (String.eqb name1 name2) then
      if decide (name1 ∈ used) then
        if decide (name2 ∈ used) then Throw (DuplicateNameError name2) used
        else Ret tt ({[name2]} ∪ (used ∖ {[name1]}))
      else Throw (UnknownNameError name1) used
    else Ret tt used.

(** ** Values handed around by pointer *)

Definition loc : Type := N.

(** The target of a [double*]: a scalar inside the object at [fst], at offset
    [snd].  [NULL] is [None]. *)
Definition address : Type := (loc * N)%type.

(** Modelled from the spec: the declaration of [CompoundControl] (its header is
    not part of the sources): a container that owns an array of child control
    instances, one per child manifold, in the same order as the children.  A
    control of any other manifold is opaque and known by its address. *)
Inductive Control : Type :=
| ControlAt (p : loc)
| CompoundControl (components : list Control).

(** Modelled from the spec: [base::State] and [base::CompoundState], compound
    states whose component ordering matches the child manifold ordering. *)
Inductive State : Type :=
| StateAt (p : loc)
| CompoundState (components : list State).

(** [static_cast<CompoundControl*>(control)->components]: undefined when the
    object is not a compound control. *)
Definition control_components {S} (control : Control) : M S (list Control) :=
  match control with
  | CompoundControl components => mret components
  | ControlAt _ => undefined
  end.

Definition state_components {S} (state : State) : M S (list State) :=
  match state with
  | CompoundState components => mret components
  | StateAt _ => undefined
  end.

(** Modelled from the spec: the state manifold interface, of which the control
    manifold consumes [getName()]. *)
Module StateManifold.
Record t : Type := { getName : string }.
End StateManifold.

(** ** The interface of a control manifold

    Modelled from the spec: the public contract every concrete manifold
    satisfies (the class declaration is in a header that is not part of the
    sources).  A [ControlManifoldPtr] is a handle on an object of any subclass;
    [p->f(...)] dispatches to that object's [f], here the field [f] of the
    handle.  Member functions declared [const] that return a value read the
    world and return it. *)
Module ControlManifoldPtr.
Section Interface.
Context {World double : Type}.

Record t : Type := {
  setup : M World unit;
  canPropagateBackward : World → bool;
  getValueAddressAtIndex : Control → N → World → option address;
  propagate : State → Control → double → State → M World unit;
  allocControl : M World Control;
  freeControl : Control → M World unit;
  copyControl : Control → Control → M World unit;
  equalControls : Control → Control → World → bool
}.

End Interface.
Arguments t : clear implicits.
End ControlManifoldPtr.

(** ** The base class *)
Module ControlManifold.
Section Class.
Context {World double : Type}.

(** [StatePropagationFn]: a [boost::function], which may be empty; the empty
    one is [None] where it is stored or passed. *)
Definition StatePropagationFn : Type :=
  State → Control → double → State → M World unit.

Record t : Type := {
  stateManifold_ : StateManifold.t;
  name_ : string;
  statePropagation_ : option StatePropagationFn
}.

(** The constructor.  The member [statePropagation_] is default-constructed,
    hence empty.  When [namesList] throws, no object comes to exist. *)
Definition constructor (stateManifold : StateManifold.t) : M (gset string) t :=
  let name_ := "Control[" ++ StateManifold.getName stateManifold ++ "]" in
  namesList 1 name_ "";;
  mret {| stateManifold_ := stateManifold; name_ := name_; statePropagation_ := None |}.

(** The destructor. *)
Definition destructor (this : t) : M (gset string) unit :=
  namesList 2 (name_ this) "".

Definition getName (this : t) : string := name_ this.

(** [setName] returns the object after the call; when [namesList] throws, the
    assignment to [name_] is not reached and the object stays as it was. *)
Definition setName (this : t) (name : string) : M (gset string) t :=
  namesList 3 (name_ this) name;;
  mret {| stateManifold_ := stateManifold_ this; name_ := name;
          statePropagation_ := statePropagation_ this |}.

Definition setup (this : t) : M World unit := mret tt.

Definition canPropagateBackward (this : t) : bool := true.

Definition getValueAddressAtIndex (this : t) (control : Control) (index : N) : option address :=
  None.

Definition propagate (this : t) (state : State) (control : Control) (duration : double)
    (result : State) : M World unit :=
  match statePropagation_ this with
  | Some fn => fn state control duration result
  | None => throw UnconfiguredPropagationError
  end.

Definition setPropagationFunction (this : t) (fn : option StatePropagationFn) : t :=
  {| stateManifold_ := stateManifold_ this; name_ := name_ this; statePropagation_ := fn |}.

End Class.
Arguments t : clear implicits.
Arguments StatePropagationFn : clear implicits.
End ControlManifold.

(** ** The compound control manifold *)

(** What a loop over a child's local indices ends with. *)
Inductive probed : Type :=
| Found (va : address)
| NextChild (idx : N).

(** What a [const] member function that walks nested loops ends with. *)
Inductive query (A : Type) : Type :=
| Answer (a : A)
| Undefined
| Unfinished.
Arguments Answer {A} a.
Arguments Undefined {A}.
Arguments Unfinished {A}.

Module CompoundControlManifold.
Section Class.
Context {World double : Type}.

Record t : Type := {
  base : ControlManifold.t World double;
  components_ : list (ControlManifoldPtr.t World double);
  componentCount_ : N;
  locked_ : bool
}.

(** Modelled from the spec: the constructor (declared in the header, which is
    not part of the sources): construction (empty), in the Open state. *)
Definition constructor (stateManifold : StateManifold.t) : M (gset string) t :=
  b ← ControlManifold.constructor stateManifold;
  mret {| base := b; components_ := []; componentCount_ := 0; locked_ := false |}.

Definition addSubManifold {S} (this : t) (component : ControlManifoldPtr.t World double)
    : M S t :=
  if locked_ this then throw LockedManifoldError
  else
    let components := (components_ this ++ [component])%list in
    mret {| base := base this; components_ := components;
            componentCount_ := u32 (N.of_nat (length components));
            locked_ := locked_ this |}.

Definition getSubManifoldCount (this : t) : N := componentCount_ this.

Definition lock (this : t) : t :=
  {| base := base this; components_ := components_ this;
     componentCount_ := componentCount_ this; locked_ := true |}.

(** The loop of [allocControl]; [components] are the slots of the new array
    written so far, [i] the next one.  The container and its array are a value
    here: only what the children allocate is in the world. *)
Fixpoint allocControl_loop (this : t) (n : nat) (i : N) (components : list Control)
    : M World (list Control) :=
  match n with
  | O => mret components
  | S n' =>
      child ← at_index (components_ this) i;
      c ← ControlManifoldPtr.allocControl child;
      allocControl_loop this n' (i + 1)%N (components ++ [c])%list
  end.

Definition allocControl (this : t) : M World Control :=
  components ← allocControl_loop this (N.to_nat (componentCount_ this)) 0%N [];
  mret (CompoundControl components).

(** The two [delete]s at the end release the container, which is a value
    here. *)
Definition freeControl (this : t) (control : Control) : M World unit :=
  ccontrol ← control_components control;
  for_loop (N.to_nat (componentCount_ this)) 0%N (λ i,
    child ← at_index (components_ this) i;
    c ← at_index ccontrol i;
    ControlManifoldPtr.freeControl child c).

Definition copyControl (this : t) (destination source : Control) : M World unit :=
  cdest ← control_components destination;
  csrc ← control_components source;
  for_loop (N.to_nat (componentCount_ this)) 0%N (λ i,
    child ← at_index (components_ this) i;
    d ← at_index cdest i;
    s ← at_index csrc i;
    ControlManifoldPtr.copyControl child d s).

(** [None] is undefined behaviour. *)
Fixpoint equalControls_loop (this : t) (ccontrol1 ccontrol2 : list Control) (w : World)
    (n : nat) (i : N) : option bool :=
  match n with
  | O => Some true
  | S n' =>
      child ← components_ this !! N.to_nat i;
      c1 ← ccontrol1 !! N.to_nat i;
      c2 ← ccontrol2 !! N.to_nat i;
      if negb (ControlManifoldPtr.equalControls child c1 c2 w) then Some false
      else equalControls_loop this ccontrol1 ccontrol2 w n' (i + 1)%N
  end.

Definition equalControls (this : t) (control1 control2 : Control) (w : World) : option bool :=
  match control1, control2 with
  | CompoundControl ccontrol1, CompoundControl ccontrol2 =>
      equalControls_loop this ccontrol1 ccontrol2 w (N.to_nat (componentCount_ this)) 0%N
  | _, _ => None
  end.

Definition propagate (this : t) (state : State) (control : Control) (duration : double)
    (result : State) : M World unit :=
  match ControlManifold.statePropagation_ (base this) with
  | Some fn => fn state control duration result
  | None =>
      cstate ← state_components state;
      ccontrol ← control_components control;
      cresult ← state_components result;
      for_loop (N.to_nat (componentCount_ this)) 0%N (λ i,
        child ← at_index (components_ this) i;
        s ← at_index cstate i;
        c ← at_index ccontrol i;
        r ← at_index cresult i;
        ControlManifoldPtr.propagate child s c duration r)
  end.

(** [None] is undefined behaviour. *)
Fixpoint canPropagateBackward_loop (this : t) (w : World) (n : nat) (i : N) : option bool :=
  match n with
  | O => Some true
  | S n' =>
      child ← components_ this !! N.to_nat i;
      if negb (ControlManifoldPtr.canPropagateBackward child w) then Some false
      else canPropagateBackward_loop this w n' (i + 1)%N
  end.

Definition canPropagateBackward (this : t) (w : World) : option bool :=
  canPropagateBackward_loop this w (N.to_nat (componentCount_ this)) 0%N.

(** The inner loop [for (unsigned int j = 0 ; j <= index ; ++j)] on one child,
    entered with the running counter [idx].  [fuel] bounds the number of
    iterations and [None] says that it ran out. *)
Fixpoint getValueAddressAtIndex_probe (child : ControlManifoldPtr.t World double)
    (c : Control) (index : N) (w : World) (fuel : nat) (j idx : N) : option probed :=
  match fuel with
  | O => None
  | S fuel' =>
      if (j <=? index)%N then
        match ControlManifoldPtr.getValueAddressAtIndex child c j w with
        | Some va =>
            if (idx =? index)%N then Some (Found va)
            else getValueAddressAtIndex_probe child c index w fuel' (u32 (j + 1)) (u32 (idx + 1))
        | None => Some (NextChild idx)
        end
      else Some (NextChild idx)
  end.

(** The outer loop, with [n] children left. *)
Fixpoint getValueAddressAtIndex_loop (this : t) (ccontrol : list Control) (index : N)
    (w : World) (n : nat) (i idx : N) : query (option address) :=
  match n with
  | O => Answer None
  | S n' =>
      match components_ this !! N.to_nat i, ccontrol !! N.to_nat i with
      | Some child, Some c =>
          match getValueAddressAtIndex_probe child c index w (S (S (N.to_nat index))) 0%N idx with
          | Some (Found va) => Answer (Some va)
          | Some (NextChild idx') =>
              getValueAddressAtIndex_loop this ccontrol index w n' (i + 1)%N idx'
          | None => Unfinished
          end
      | _, _ => Undefined
      end
  end.

Definition getValueAddressAtIndex (this : t) (control : Control) (index : N) (w : World)
    : query (option address) :=
  match control with
  | CompoundControl ccontrol =>
      getValueAddressAtIndex_loop this ccontrol index w
        (N.to_nat (componentCount_ this)) 0%N 0%N
  | ControlAt _ => Undefined
  end.

Definition setup (this : t) : M World unit :=
  for_loop (N.to_nat (componentCount_ this)) 0%N (λ i,
    child ← at_index (components_ this) i;
    ControlManifoldPtr.setup child);;
  ControlManifold.setup (base this).

(** [getSubManifold(const unsigned int index)]. *)
Definition getSubManifold {S} (this : t) (index : N)
    : M S (ControlManifoldPtr.t World double) :=
  if (index <? componentCount_ this)%N then at_index (components_ this) index
  else throw (exception "Submanifold index does not exist").

(** The members of the children that the record of the interface does not
    carry are parameters of the functions that call them: [nameOf child w] is
    what [child->getName()] returns in world [w], [dimensionOf child w] what
    [child->getDimension()] returns. *)
Section Members.
Variable nameOf : ControlManifoldPtr.t World double → World → string.
Variable dimensionOf : ControlManifoldPtr.t World double → World → N.

(** The loop of [getSubManifold(const std::string &name)], with [n] children
    left. *)
Fixpoint getSubManifoldByName_loop (this : t) (name : string) (n : nat) (i : N)
    : M World (ControlManifoldPtr.t World double) :=
  match n with
  | O => throw (exception ("Submanifold " ++ name ++ " does not exist"))
  | S n' =>
      child ← at_index (components_ this) i;
      ((λ w, if String.eqb (nameOf child w) name then Ret child w
             else getSubManifoldByName_loop this name n' (i + 1)%N w)
       : M World (ControlManifoldPtr.t World double))
  end.

(** [getSubManifold(const std::string &name)]. *)
Definition getSubManifoldByName (this : t) (name : string)
    : M World (ControlManifoldPtr.t World double) :=
  getSubManifoldByName_loop this name (N.to_nat (componentCount_ this)) 0%N.

(** The loop of [getDimension], with [dim] the sum so far as an
    [unsigned int]; [None] is undefined behaviour. *)
Fixpoint getDimension_loop (this : t) (w : World) (n : nat) (i dim : N) : option N :=
  match n with
  | O => Some dim
  | S n' =>
      child ← components_ this !! N.to_nat i;
      getDimension_loop this w n' (i + 1)%N (u32 (dim + dimensionOf child w))
  end.

Definition getDimension (this : t) (w : World) : option N :=
  getDimension_loop this w (N.to_nat (componentCount_ this)) 0%N 0%N.

End Members.

End Class.
Arguments t : clear implicits.
End CompoundControlManifold.

(** ** A session: the registry and the live control manifolds

    The objects that exist, by address, and the events that create, destroy
    and rename them.  An event on an address that holds no object does not
    occur in a program; here it changes nothing. *)
Module Session.
Section Session.
Context {World double : Type}.

Record t : Type := {
  used : gset string;
  live : gmap loc (ControlManifold.t World double)
}.

Definition initial : t := {| used := ∅; live := ∅ |}.

Inductive event : Type :=
| Construct (stateManifold : StateManifold.t)
| Destroy (this : loc)
| SetName (this : loc) (name : string)
| SetPropagationFunction (this : loc)
    (fn : option (ControlManifold.StatePropagationFn World double)).

Definition step (s : t) (ev : event) : t :=
  match ev with
  | Construct stateManifold =>
      match ControlManifold.constructor stateManifold (used s) with
      | Ret obj used' => {| used := used'; live := <[fresh (dom (live s)) := obj]> (live s) |}
      | Throw _ used' => {| used := used'; live := live s |}
      | Undef => s
      end
  | Destroy this =>
      match live s !! this with
      | Some obj =>
          match ControlManifold.destructor obj (used s) with
          | Ret _ used' | Throw _ used' => {| used := used'; live := delete this (live s) |}
          | Undef => s
          end
      | None => s
      end
  | SetName this name =>
      match live s !! this with
      | Some obj =>
          match ControlManifold.setName obj name (used s) with
          | Ret obj' used' => {| used := used'; live := <[this := obj']> (live s) |}
          | Throw _ used' => {| used := used'; live := live s |}
          | Undef => s
          end
      | None => s
      end
  | SetPropagationFunction this fn =>
      match live s !! this with
      | Some obj =>
          {| used := used s;
             live := <[this := ControlManifold.setPropagationFunction obj fn]> (live s) |}
      | None => s
      end
  end.

Definition run (s : t) (evs : list event) : t := foldl step s evs.

(** No two live manifolds report the same name. *)
Definition names_unique (s : t) : Prop :=
  ∀ a b ma mb, live s !! a = Some ma → live s !! b = Some mb →
    ControlManifold.getName ma = ControlManifold.getName mb → a = b.

(** The registry holds exactly the names of the live manifolds. *)
Definition registry_exact (s : t) : Prop :=
  ∀ name, name ∈ used s ↔ ∃ a m, live s !! a = Some m ∧ ControlManifold.getName m = name.

End Session.
Arguments t : clear implicits.
Arguments event : clear implicits.
End Session.

(** ** Calls on one compound manifold

    The member functions of the source that are not [const], called on one
    compound manifold; the registry and the world are what they act on besides
    the object.  A call that throws leaves the object as it was: each throws
    before it assigns to a member. *)
Module Calls.
Section Calls.
Context {World double : Type}.

Record env : Type := { registry : gset string; world : World }.

Inductive call : Type :=
| AddSubManifold (component : ControlManifoldPtr.t World double)
| Lock
| SetName (name : string)
| SetPropagationFunction (fn : option (ControlManifold.StatePropagationFn World double))
| Setup.

Definition with_base (this : CompoundControlManifold.t World double)
    (b : ControlManifold.t World double) : CompoundControlManifold.t World double :=
  {| CompoundControlManifold.base := b;
     CompoundControlManifold.components_ := CompoundControlManifold.components_ this;
     CompoundControlManifold.componentCount_ := CompoundControlManifold.componentCount_ this;
     CompoundControlManifold.locked_ := CompoundControlManifold.locked_ this |}.

Definition exec (c : call) (this : CompoundControlManifold.t World double)
    : M env (CompoundControlManifold.t World double) :=
  match c with
  | AddSubManifold component => CompoundControlManifold.addSubManifold this component
  | Lock => mret (CompoundControlManifold.lock this)
  | SetName name => λ e,
      match ControlManifold.setName (CompoundControlManifold.base this) name (registry e) with
      | Ret b r => Ret (with_base this b) {| registry := r; world := world e |}
      | Throw ex r => Throw ex {| registry := r; world := world e |}
      | Undef => Undef
      end
  | SetPropagationFunction fn =>
      mret (with_base this
              (ControlManifold.setPropagationFunction (CompoundControlManifold.base this) fn))
  | Setup => λ e,
      match CompoundControlManifold.setup this (world e) with
      | Ret _ w => Ret this {| registry := registry e; world := w |}
      | Throw ex w => Throw ex {| registry := registry e; world := w |}
      | Undef => Undef
      end
  end.

(** A sequence of calls; [None] when one of them has undefined behaviour. *)
Fixpoint run (calls : list call) (this : CompoundControlManifold.t World double) (e : env)
    : option (CompoundControlManifold.t World double * env) :=
  match calls with
  | [] => Some (this, e)
  | c :: calls' =>
      match exec c this e with
      | Ret this' e' => run calls' this' e'
      | Throw _ e' => run calls' this e'
      | Undef => None
      end
  end.

End Calls.
Arguments env : clear implicits.
Arguments call : clear implicits.
End Calls.

(** ** What the specification says, as definitions of their own

    These follow the words of the specification, not the loops of the code;
    the theorems below compare the two. *)
Module Spec.
Section Spec.
Context {World double : Type}.
Abbreviation child_t := (ControlManifoldPtr.t World double).

(** The cached child count is the size of the child list, as an
    [unsigned int]. *)
Definition count_cached (this : CompoundControlManifold.t World double) : Prop :=
  CompoundControlManifold.componentCount_ this
  = u32 (N.of_nat (length (CompoundControlManifold.components_ this))).

(** The [k] children the operations range over. *)
Definition children (this : CompoundControlManifold.t World double) : list child_t :=
  take (N.to_nat (CompoundControlManifold.getSubManifoldCount this))
       (CompoundControlManifold.components_ this).

(** "For each index [i] in [0..k], propagate the [i]-th sub-state/sub-control/
    sub-result triple through [children[i]]". *)
Fixpoint propagate_each (cs : list child_t) (states : list State) (controls : list Control)
    (duration : double) (results : list State) : M World unit :=
  match cs, states, controls, results with
  | [], _, _, _ => mret tt
  | child :: cs', s :: states', c :: controls', r :: results' =>
      ControlManifoldPtr.propagate child s c duration r;;
      propagate_each cs' states' controls' duration results'
  | _, _, _, _ => undefined
  end.

(** "Filling slot [i] by calling [children[i].allocControl()]": every child
    allocates, in order, from world [w] to world [w']. *)
Inductive allocated : list child_t → World → list Control → World → Prop :=
| allocated_nil w : allocated [] w [] w
| allocated_cons child cs w c w1 slots w' :
    ControlManifoldPtr.allocControl child w = Ret c w1 →
    allocated cs w1 slots w' →
    allocated (child :: cs) w (c :: slots) w'.

(** The children before the [i]-th allocate the slots [slots] and the [i]-th
    fails with [e], leaving the world [w']. *)
Inductive allocation_fails : list child_t → World → list child_t → list Control →
    Exception → World → Prop :=
| allocation_fails_here child cs w e w' :
    ControlManifoldPtr.allocControl child w = Throw e w' →
    allocation_fails (child :: cs) w [] [] e w'
| allocation_fails_later child cs w c w1 before slots e w' :
    ControlManifoldPtr.allocControl child w = Ret c w1 →
    allocation_fails cs w1 before slots e w' →
    allocation_fails (child :: cs) w (child :: before) (c :: slots) e w'.

(** "The already-allocated prior slots must be freed": each through its owning
    child manifold. *)
Fixpoint free_each (cs : list child_t) (slots : list Control) : M World unit :=
  match cs, slots with
  | child :: cs', c :: slots' => ControlManifoldPtr.freeControl child c;; free_each cs' slots'
  | _, _ => mret tt
  end.

(** The partial-failure policy: whenever a child allocation fails, the caller
    gets the failure in the world in which the prior slots have been freed. *)
Definition frees_prior_slots_on_failure (this : CompoundControlManifold.t World double)
    (w : World) : Prop :=
  ∀ before slots e w', allocation_fails (children this) w before slots e w' →
    ∃ w'', free_each before slots w' = Ret tt w''
           ∧ CompoundControlManifold.allocControl this w = Throw e w''.

(** A child exposes [n] local value slots of control [c]: the local indices
    below [n] have an address, and [n] has none. *)
Definition exposes (w : World) (child : child_t) (c : Control) (n : N) : Prop :=
  (∀ j, (j < n)%N → is_Some (ControlManifoldPtr.getValueAddressAtIndex child c j w))
  ∧ ControlManifoldPtr.getValueAddressAtIndex child c n w = None.

Definition total_slots (counts : list N) : N := foldr N.add 0%N counts.

(** The slot at a flattened index: the children in order, each child's local
    indices in order. *)
Fixpoint flat_slot (cs : list child_t) (controls : list Control) (counts : list N)
    (flatIndex : N) (w : World) : option address :=
  match cs, controls, counts with
  | child :: cs', c :: controls', n :: counts' =>
      if (flatIndex <? n)%N then ControlManifoldPtr.getValueAddressAtIndex child c flatIndex w
      else flat_slot cs' controls' counts' (flatIndex - n)%N w
  | _, _, _ => None
  end.

End Spec.
End Spec.

(** ** Manifolds to run the code on

    A world of integer vectors by address, durations that are integers, and
    three small subclasses of the interface. *)
Module Fixture.

Abbreviation World := (gmap loc (list Z)).
Abbreviation child_t := (ControlManifoldPtr.t World Z).

(** A manifold whose controls are vectors of [n] integers; states are vectors
    too and propagation adds [duration] times the control to the state. *)
Definition vector_manifold (n : N) (backward : bool) : child_t := {|
  ControlManifoldPtr.setup := mret tt;
  ControlManifoldPtr.canPropagateBackward := λ _, backward;
  ControlManifoldPtr.getValueAddressAtIndex := λ c j _,
    match c with
    | ControlAt p => if (j <? n)%N then Some (p, j) else None
    | CompoundControl _ => None
    end;
  ControlManifoldPtr.propagate := λ s c d r w,
    match s, c, r with
    | StateAt ps, ControlAt pc, StateAt pr =>
        match w !! ps, w !! pc with
        | Some vs, Some vc => Ret tt (<[pr := zip_with (λ x u, x + u * d)%Z vs vc]> w)
        | _, _ => Undef
        end
    | _, _, _ => Undef
    end;
  ControlManifoldPtr.allocControl := λ w,
    let p := fresh (dom w) in Ret (ControlAt p) (<[p := replicate (N.to_nat n) 0%Z]> w);
  ControlManifoldPtr.freeControl := λ c w,
    match c with
    | ControlAt p => Ret tt (delete p w)
    | CompoundControl _ => Undef
    end;
  ControlManifoldPtr.copyControl := λ d s w,
    match d, s with
    | ControlAt pd, ControlAt ps =>
        match w !! ps with
        | Some v => Ret tt (<[pd := v]> w)
        | None => Undef
        end
    | _, _ => Undef
    end;
  ControlManifoldPtr.equalControls := λ a b w,
    match a, b with
    | ControlAt pa, ControlAt pb => bool_decide (w !! pa = w !! pb)
    | _, _ => false
    end
|}.

(** A manifold that cannot allocate. *)
Definition exhausted_manifold : child_t := {|
  ControlManifoldPtr.setup := mret tt;
  ControlManifoldPtr.canPropagateBackward := λ _, true;
  ControlManifoldPtr.getValueAddressAtIndex := λ _ _ _, None;
  ControlManifoldPtr.propagate := λ _ _ _ _, throw UnconfiguredPropagationError;
  ControlManifoldPtr.allocControl := throw (exception "std::bad_alloc");
  ControlManifoldPtr.freeControl := λ _, mret tt;
  ControlManifoldPtr.copyControl := λ _ _, mret tt;
  ControlManifoldPtr.equalControls := λ _ _ _, true
|}.

(** A manifold whose dynamics can be run backward as long as the world holds
    nothing at address 99. *)
Definition switchable_manifold : child_t := {|
  ControlManifoldPtr.setup := mret tt;
  ControlManifoldPtr.canPropagateBackward := λ w, bool_decide (w !! 99%N = None);
  ControlManifoldPtr.getValueAddressAtIndex := λ _ _ _, None;
  ControlManifoldPtr.propagate := λ _ _ _ _, mret tt;
  ControlManifoldPtr.allocControl := λ w, Ret (ControlAt (fresh (dom w))) (<[fresh (dom w) := []]> w);
  ControlManifoldPtr.freeControl := λ _, mret tt;
  ControlManifoldPtr.copyControl := λ _ _, mret tt;
  ControlManifoldPtr.equalControls := λ _ _ _, true
|}.

(** A compound manifold over the given children, as [addSubManifold] builds
    it; its own propagation function is [fn]. *)
Definition compound (fn : option (ControlManifold.StatePropagationFn World Z))
    (cs : list child_t) : CompoundControlManifold.t World Z := {|
  CompoundControlManifold.base := {|
    ControlManifold.stateManifold_ := {| StateManifold.getName := "S" |};
    ControlManifold.name_ := "Control[S]";
    ControlManifold.statePropagation_ := fn |};
  CompoundControlManifold.components_ := cs;
  CompoundControlManifold.componentCount_ := u32 (N.of_nat (length cs));
  CompoundControlManifold.locked_ := false
|}.

(** A state manifold named "arm" and the control manifold built over it. *)
Definition arm : StateManifold.t := {| StateManifold.getName := "arm" |}.

Definition arm_control : ControlManifold.t World Z :=
  {| ControlManifold.stateManifold_ := arm;
     ControlManifold.name_ := "Control[arm]";
     ControlManifold.statePropagation_ := None |}.

(** A two-vector that can run backward and a one-vector that cannot. *)
Definition two_and_one : CompoundControlManifold.t World Z :=
  compound None [vector_manifold 2 true; vector_manifold 1 false].

(** The registry holding the name of [two_and_one], and an empty world. *)
Definition at_rest : Calls.env World :=
  {| Calls.registry := {["Control[S]"]}; Calls.world := ∅ |}.


(** Three vectors exposing 2, 0 and 3 value slots. *)
Definition two_none_three : CompoundControlManifold.t World Z :=
  compound None [vector_manifold 2 true; vector_manifold 0 true; vector_manifold 3 true].

(** A two-vector and a manifold that cannot allocate. *)
Definition two_then_exhausted : CompoundControlManifold.t World Z :=
  compound None [vector_manifold 2 true; exhausted_manifold].

(** Names and dimensions for the vector manifolds: a child is named after
    whether it can run backward, and its dimension is the number of its value
    slots, up to three. *)
Definition name_by_direction (child : child_t) (w : World) : string :=
  if ControlManifoldPtr.canPropagateBackward child w then "reversible" else "irreversible".

Definition dimension_by_slots (child : child_t) (w : World) : N :=
  match ControlManifoldPtr.getValueAddressAtIndex child (ControlAt 0%N) 2%N w,
        ControlManifoldPtr.getValueAddressAtIndex child (ControlAt 0%N) 1%N w,
        ControlManifoldPtr.getValueAddressAtIndex child (ControlAt 0%N) 0%N w with
  | Some _, _, _ => 3%N
  | None, Some _, _ => 2%N
  | None, None, Some _ => 1%N
  | None, None, None => 0%N
  end.

(** [two_and_one] after a three-vector has been added. *)
Definition two_one_three : CompoundControlManifold.t World Z :=
  compound None [vector_manifold 2 true; vector_manifold 1 false; vector_manifold 3 true].

End Fixture.

(** ** Notions the statements use *)
Section Notions.
Context {World double : Type}.
Implicit Types (this : CompoundControlManifold.t World double).

(** The name a control manifold gets from its state manifold. *)
Definition default_name (stateManifold : StateManifold.t) : string :=
  "Control[" ++ StateManifold.getName stateManifold ++ "]".

(** The object [setName] leaves on success. *)
Definition renamed (this : ControlManifold.t World double) (name : string)
    : ControlManifold.t World double :=
  {| ControlManifold.stateManifold_ := ControlManifold.stateManifold_ this;
     ControlManifold.name_ := name;
     ControlManifold.statePropagation_ := ControlManifold.statePropagation_ this |}.

(** The invariant of a session. *)
Definition session_inv (s : Session.t World double) : Prop :=
  Session.names_unique s ∧ Session.registry_exact s.

(** The compound manifold after the inherited [setPropagationFunction(fn)]. *)
Definition with_propagation this
    (fn : option (ControlManifold.StatePropagationFn World double)) :=
  Calls.with_base this
    (ControlManifold.setPropagationFunction (CompoundControlManifold.base this) fn).

(** Slot [i] of a pair of compound controls, with the child that owns it. *)
Definition slot this (cs1 cs2 : list Control) (i : nat)
    (child : ControlManifoldPtr.t World double) (c1 c2 : Control) : Prop :=
  Spec.children this !! i = Some child ∧ cs1 !! i = Some c1 ∧ cs2 !! i = Some c2.

(** A compound control with one slot per child. *)
Definition shaped this (components : list Control) : Prop :=
  length components = length (Spec.children this).



End Notions.

(** ** Notions of the further properties *)
Section MoreNotions.
Context {World double : Type}.

(** The dimensions of the children, added up without a bound;
    [dimensionOf child w] is what [child->getDimension()] returns. *)
Definition dimension_sum (dimensionOf : ControlManifoldPtr.t World double → World → N)
    (this : CompoundControlManifold.t World double) (w : World) : N :=
  foldr N.add 0%N ((λ child, dimensionOf child w) <$> Spec.children this).

End MoreNotions.

(** * Theorems *)

(** Open the monad to its outcomes. *)
Ltac open_monad :=
  unfold mbind, M_bind, mret, M_ret, throw, undefined, at_index in *.

Lemma bind_run {S A B} (m : M S A) (k : A → M S B) (s : S) :
  (m ≫= k) s = match m s with
               | Ret a s' => k a s'
               | Throw e s' => Throw e s'
               | Undef => Undef
               end.
Proof. reflexivity. Qed.

Lemma at_index_run {S A} (arr : list A) (i : N) (s : S) :
  at_index arr i s = match arr !! N.to_nat i with
                     | Some x => Ret x s
                     | None => Undef
                     end.
Proof. unfold at_index. by destruct (arr !! N.to_nat i). Qed.

Lemma for_loop_run {S} (n : nat) (i : N) (body : N → M S unit) (s : S) :
  for_loop (Datatypes.S n) i body s
  = match body i s with
    | Ret _ s' => for_loop n (i + 1)%N body s'
    | Throw e s' => Throw e s'
    | Undef => Undef
    end.
Proof. reflexivity. Qed.

Lemma ret_run {S A} (a : A) (s : S) : mret (M:=M S) a s = Ret a s.
Proof. reflexivity. Qed.

(** Run the next call of a sequence. *)
Ltac step_bind := rewrite bind_run; rewrite ?ret_run; cbn beta iota.

(** ** The registry and the names of manifolds *)
Section Registry.
Context {World double : Type}.
Implicit Types (used : gset string) (this : ControlManifold.t World double).

Lemma namesList_add used name :
  namesList 1 name "" used =
    if decide (name ∈ used) then Throw (DuplicateNameError name) used
    else Ret tt ({[name]} ∪ used).
Proof. reflexivity. Qed.

Lemma namesList_remove used name :
  namesList 2 name "" used =
    if decide (name ∈ used) then Ret tt (used ∖ {[name]})
    else Throw (UnknownNameError name) used.
Proof. reflexivity. Qed.

Lemma namesList_replace used oldName newName :
  namesList 3 oldName newName used =
    if decide (oldName = newName) then Ret tt used
    else if decide (oldName ∈ used) then
      if decide (newName ∈ used) then Throw (DuplicateNameError newName) used
      else Ret tt ({[newName]} ∪ used ∖ {[oldName]})
    else Throw (UnknownNameError oldName) used.
Proof.
  unfold namesList. cbn [Z.eqb Pos.eqb andb].
  destruct (String.eqb_spec oldName newName) as [Heq|Hne]; cbn [negb].
  - destruct (decide (oldName = newName)); [reflexivity|contradiction].
  - destruct (decide (oldName = newName)); [contradiction|reflexivity].
Qed.

Lemma setName_namesList this name used :
  ControlManifold.setName this name used =
    match namesList 3 (ControlManifold.getName this) name used with
    | Ret _ used' => Ret (renamed this name) used'
    | Throw e used' => Throw e used'
    | Undef => Undef
    end.
Proof. reflexivity. Qed.

Lemma constructor_registers (stateManifold : StateManifold.t) (used : gset string) :
  ControlManifold.constructor (World:=World) (double:=double) stateManifold used =
    if decide (default_name stateManifold ∈ used)
    then Throw (DuplicateNameError (default_name stateManifold)) used
    else Ret {| ControlManifold.stateManifold_ := stateManifold;
                ControlManifold.name_ := default_name stateManifold;
                ControlManifold.statePropagation_ := None |}
             ({[default_name stateManifold]} ∪ used).
Proof.
  unfold ControlManifold.constructor, mbind, M_bind, mret, M_ret.
  rewrite namesList_add. fold (default_name stateManifold).
  by destruct (decide (default_name stateManifold ∈ used)).
Qed.

(** C2.  [rename(oldName, newName)] is a no-op success when the names are
    equal; otherwise it fails with [UnknownNameError] when [oldName] is absent,
    fails with [DuplicateNameError] when [newName] is present, and otherwise
    removes [oldName] and inserts [newName] in one step; the registry is
    unchanged on either failure.  [setName] fails exactly when the rename of
    its current name fails, with the same failure, and otherwise reports the
    new name. *)
Theorem rename_semantics used (oldName newName : string) this :
  namesList 3 oldName newName used =
    (if decide (oldName = newName) then Ret tt used
     else if decide (oldName ∈ used) then
       if decide (newName ∈ used) then Throw (DuplicateNameError newName) used
       else Ret tt ({[newName]} ∪ used ∖ {[oldName]})
     else Throw (UnknownNameError oldName) used)
  ∧ ControlManifold.setName this newName used =
      match namesList 3 (ControlManifold.getName this) newName used with
      | Ret _ used' => Ret (renamed this newName) used'
      | Throw e used' => Throw e used'
      | Undef => Undef
      end
  ∧ ControlManifold.getName (renamed this newName) = newName
  ∧ (∀ e used', namesList 3 oldName newName used = Throw e used' → used' = used).
Proof.
  split; [apply namesList_replace|].
  split; [apply setName_namesList|]. split; [reflexivity|].
  intros e used'. rewrite namesList_replace.
  repeat case_decide; intros; by simplify_eq.
Qed.

End Registry.

(** ** The uniqueness invariant over a session *)
Section Sessions.
Context {World double : Type}.
Implicit Types (s : Session.t World double) (ev : Session.event World double).

Lemma session_inv_initial : session_inv (Session.initial (World:=World) (double:=double)).
Proof.
  split.
  - intros a b ma mb Ha. cbn in Ha. by rewrite lookup_empty in Ha.
  - intros name. cbn. split; [set_solver|].
    intros (a & m & Hm & _). by rewrite lookup_empty in Hm.
Qed.

Lemma fresh_not_live s : Session.live s !! fresh (dom (Session.live s)) = None.
Proof. apply not_elem_of_dom, is_fresh. Qed.

Lemma step_construct_inv s stateManifold :
  session_inv s → session_inv (Session.step s (Session.Construct stateManifold)).
Proof.
  intros [Huniq Hexact]. unfold Session.registry_exact, Session.names_unique in *.
  cbn [Session.step].
  unfold ControlManifold.constructor, mbind, M_bind, mret, M_ret.
  rewrite namesList_add.
  set (name := "Control[" ++ StateManifold.getName stateManifold ++ "]").
  destruct (decide (name ∈ Session.used s)) as [Hin|Hnin].
  - split; [exact Huniq|exact Hexact].
  - pose proof (fresh_not_live s) as Hfresh.
    generalize dependent (fresh (dom (Session.live s))). intros p Hfresh.
    assert (Hnone : ∀ a m, Session.live s !! a = Some m → ControlManifold.getName m ≠ name).
    { intros a m Hm Heq. apply Hnin, Hexact. eauto. }
    split.
    + intros a b ma mb Ha Hb Hab. cbn in Ha, Hb.
      apply lookup_insert_Some in Ha as [[<- <-]|[Hna Ha]];
        apply lookup_insert_Some in Hb as [[<- <-]|[Hnb Hb]]; [done|..].
      * cbn in Hab. symmetry in Hab. by apply Hnone in Hb.
      * cbn in Hab. by apply Hnone in Ha.
      * eauto.
    + intros n. cbn. rewrite elem_of_union, elem_of_singleton, Hexact. split.
      * intros [->|(a & m & Hm & Hn)].
        -- eexists p, _. rewrite lookup_insert_eq. done.
        -- exists a, m. split; [|done].
           rewrite lookup_insert_ne; [done|]. intros ->. congruence.
      * intros (a & m & Hm & Hn).
        apply lookup_insert_Some in Hm as [[<- <-]|[Hna Hm]]; [by left|right; eauto].
Qed.

Lemma step_destroy_inv s this :
  session_inv s → session_inv (Session.step s (Session.Destroy this)).
Proof.
  intros [Huniq Hexact]. unfold Session.registry_exact, Session.names_unique in *.
  cbn [Session.step].
  destruct (Session.live s !! this) as [obj|] eqn:Hobj; [|done].
  unfold ControlManifold.destructor. rewrite namesList_remove.
  rewrite decide_True by (apply Hexact; eauto).
  split.
  - intros a b ma mb Ha Hb. cbn in Ha, Hb.
    apply lookup_delete_Some in Ha as [_ Ha]. apply lookup_delete_Some in Hb as [_ Hb].
    eauto.
  - intros n. cbn. rewrite elem_of_difference, elem_of_singleton, Hexact. split.
    + intros [(a & m & Hm & Hn) Hne]. exists a, m. split; [|done].
      apply lookup_delete_Some. split; [|done]. intros ->. by simplify_eq.
    + intros (a & m & Hm & Hn). apply lookup_delete_Some in Hm as [Hne Hm].
      split; [eauto|]. intros ->. apply Hne. symmetry. by eapply Huniq.
Qed.

Lemma step_setName_inv s this name :
  session_inv s → session_inv (Session.step s (Session.SetName this name)).
Proof.
  intros [Huniq Hexact]. unfold Session.registry_exact, Session.names_unique in *.
  cbn [Session.step].
  destruct (Session.live s !! this) as [obj|] eqn:Hobj; [|done].
  rewrite setName_namesList, namesList_replace.
  assert (Hsame : ∀ a m, <[this := renamed obj name]> (Session.live s) !! a = Some m →
    (a = this ∧ m = renamed obj name) ∨ (a ≠ this ∧ Session.live s !! a = Some m)).
  { intros a m Hm. apply lookup_insert_Some in Hm as [[<- <-]|[Hne Hm]]; [by left|right].
    split; [congruence|done]. }
  destruct (decide (ControlManifold.getName obj = name)) as [Heq|Hne].
  - (* the same name: the registry stays and the object is as it was *)
    assert (renamed obj name = obj) as -> by (destruct obj; cbn in *; by subst).
    rewrite insert_id by done. by destruct s.
  - rewrite decide_True by (apply Hexact; eauto).
    destruct (decide (name ∈ Session.used s)) as [Hin|Hnin]; [by destruct s|].
    assert (Hnone : ∀ a m, Session.live s !! a = Some m → ControlManifold.getName m ≠ name).
    { intros a m Hm Heq. apply Hnin, Hexact. eauto. }
    split.
    + intros a b ma mb Ha Hb Hab. cbn in Ha, Hb.
      apply Hsame in Ha as [[-> ->]|[Hna Ha]], Hb as [[-> ->]|[Hnb Hb]]; [done|..].
      * cbn in Hab. symmetry in Hab. by apply Hnone in Hb.
      * cbn in Hab. by apply Hnone in Ha.
      * eauto.
    + intros n. cbn.
      rewrite elem_of_union, elem_of_singleton, elem_of_difference, elem_of_singleton, Hexact.
      split.
      * intros [->|[(a & m & Hm & Hn) Hnn]].
        -- exists this, (renamed obj name). by rewrite lookup_insert_eq.
        -- exists a, m. split; [|done]. rewrite lookup_insert_ne; [done|].
           intros ->. by simplify_eq.
      * intros (a & m & Hm & Hn). apply Hsame in Hm as [[-> ->]|[Hna Hm]].
        -- by left.
        -- right. split; [eauto|]. intros ->. apply Hna. by eapply Huniq.
Qed.

Lemma step_setPropagationFunction_inv s this fn :
  session_inv s → session_inv (Session.step s (Session.SetPropagationFunction this fn)).
Proof.
  intros [Huniq Hexact]. unfold Session.registry_exact, Session.names_unique in *.
  cbn [Session.step].
  destruct (Session.live s !! this) as [obj|] eqn:Hobj; [|done].
  assert (Hsame : ∀ a m,
    <[this := ControlManifold.setPropagationFunction obj fn]> (Session.live s) !! a = Some m →
    ∃ m', Session.live s !! a = Some m' ∧ ControlManifold.getName m' = ControlManifold.getName m).
  { intros a m Hm. apply lookup_insert_Some in Hm as [[<- <-]|[_ Hm]]; eauto. }
  split.
  - intros a b ma mb Ha Hb Hab. cbn in Ha, Hb.
    apply Hsame in Ha as (ma' & Ha & Hna), Hb as (mb' & Hb & Hnb).
    eapply Huniq; [done..|congruence].
  - intros n. cbn. rewrite Hexact. split.
    + intros (a & m & Hm & Hn). destruct (decide (a = this)) as [->|Hne].
      * eexists this, _. rewrite lookup_insert_eq. split; [done|]. by simplify_eq.
      * exists a, m. by rewrite lookup_insert_ne.
    + intros (a & m & Hm & Hn). apply Hsame in Hm as (m' & Hm & Hn'). 
      exists a, m'. split; [done|congruence].
Qed.

Lemma step_inv s ev : session_inv s → session_inv (Session.step s ev).
Proof.
  destruct ev; eauto using step_construct_inv, step_destroy_inv, step_setName_inv,
    step_setPropagationFunction_inv.
Qed.

Lemma run_inv s evs : session_inv s → session_inv (Session.run s evs).
Proof.
  revert s. induction evs as [|ev evs IH]; intros s Hs; [done|].
  cbn. apply IH, step_inv, Hs.
Qed.

Lemma step_construct_used s stateManifold :
  Session.used (Session.step s (Session.Construct stateManifold))
  = if decide (default_name stateManifold ∈ Session.used s) then Session.used s
    else {[default_name stateManifold]} ∪ Session.used s.
Proof.
  cbn [Session.step]. rewrite constructor_registers. by case_decide.
Qed.

Lemma step_destroy_used s this obj :
  session_inv s → Session.live s !! this = Some obj →
  Session.used (Session.step s (Session.Destroy this))
    = Session.used s ∖ {[ControlManifold.getName obj]}
  ∧ Session.live (Session.step s (Session.Destroy this)) !! this = None.
Proof.
  intros [_ Hexact] Hobj. cbn [Session.step]. rewrite Hobj.
  unfold ControlManifold.destructor. rewrite namesList_remove.
  rewrite decide_True by (apply Hexact; eauto).
  split; [done|]. apply lookup_delete_eq.
Qed.

Lemma step_setName_used s this obj name :
  Session.live s !! this = Some obj →
  Session.used (Session.step s (Session.SetName this name))
  = if decide (ControlManifold.getName obj = name) then Session.used s
    else if decide (ControlManifold.getName obj ∈ Session.used s) then
      if decide (name ∈ Session.used s) then Session.used s
      else {[name]} ∪ Session.used s ∖ {[ControlManifold.getName obj]}
    else Session.used s.
Proof.
  intros Hobj. cbn [Session.step]. rewrite Hobj.
  rewrite setName_namesList, namesList_replace. by repeat case_decide.
Qed.

(** C1.  After every sequence of constructions, destructions and renames,
    starting with no manifolds, no two live control manifolds report the same
    name, and the registry holds exactly the names of the live manifolds.  A
    construction registers the default name if it is free, the destruction of
    a live manifold unregisters its name, and a rename of a live manifold
    replaces its name by the new one if that is free. *)
Theorem name_uniqueness_invariant (evs : list (Session.event World double)) :
  Session.names_unique (Session.run Session.initial evs)
  ∧ Session.registry_exact (Session.run Session.initial evs)
  ∧ (∀ stateManifold,
       Session.used (Session.step (Session.run Session.initial evs)
                       (Session.Construct stateManifold))
       = if decide (default_name stateManifold ∈ Session.used (Session.run Session.initial evs))
         then Session.used (Session.run Session.initial evs)
         else {[default_name stateManifold]} ∪ Session.used (Session.run Session.initial evs))
  ∧ (∀ this obj, Session.live (Session.run Session.initial evs) !! this = Some obj →
       Session.used (Session.step (Session.run Session.initial evs) (Session.Destroy this))
       = Session.used (Session.run Session.initial evs) ∖ {[ControlManifold.getName obj]}
       ∧ Session.live (Session.step (Session.run Session.initial evs) (Session.Destroy this))
           !! this = None)
  ∧ (∀ this obj name, Session.live (Session.run Session.initial evs) !! this = Some obj →
       ControlManifold.getName obj ≠ name →
       name ∉ Session.used (Session.run Session.initial evs) →
       Session.used (Session.step (Session.run Session.initial evs) (Session.SetName this name))
       = {[name]} ∪ Session.used (Session.run Session.initial evs)
                  ∖ {[ControlManifold.getName obj]}).
Proof.
  pose proof (run_inv Session.initial evs session_inv_initial) as Hinv.
  destruct Hinv as [Huniq Hexact].
  split; [done|]. split; [done|]. split; [|split].
  - intros. apply step_construct_used.
  - intros this obj Hobj. by apply step_destroy_used.
  - intros this obj name Hobj Hne Hfree. rewrite (step_setName_used _ _ obj) by done.
    rewrite decide_False by done. rewrite decide_True by (apply Hexact; eauto).
    by rewrite decide_False.
Qed.

End Sessions.

(** ** Construction: the default name and its collision *)
Section Construction.
Context {World double : Type}.

(** C10.  The constructor names the manifold ["Control[" + name of the state
    manifold + "]"] and registers that name before it returns.  So, in any
    session, while a manifold reporting the default name of a state manifold
    is live, constructing a control manifold over a state manifold of the same
    name fails with [DuplicateNameError]; once the first is destroyed, the
    construction succeeds. *)
Theorem construction_default_name (evs : list (Session.event World double))
    (stateManifold stateManifold' : StateManifold.t) (a : loc)
    (first : ControlManifold.t World double) :
  Session.live (Session.run Session.initial evs) !! a = Some first →
  ControlManifold.getName first = default_name stateManifold →
  StateManifold.getName stateManifold' = StateManifold.getName stateManifold →
  (∀ used : gset string,
     ControlManifold.constructor (World:=World) (double:=double) stateManifold used =
       if decide (default_name stateManifold ∈ used)
       then Throw (DuplicateNameError (default_name stateManifold)) used
       else Ret {| ControlManifold.stateManifold_ := stateManifold;
                   ControlManifold.name_ := default_name stateManifold;
                   ControlManifold.statePropagation_ := None |}
                ({[default_name stateManifold]} ∪ used))
  ∧ ControlManifold.constructor (World:=World) (double:=double) stateManifold'
        (Session.used (Session.run Session.initial evs))
      = Throw (DuplicateNameError (default_name stateManifold))
          (Session.used (Session.run Session.initial evs))
  ∧ ∃ (second : ControlManifold.t World double) (used' : gset string),
      ControlManifold.constructor stateManifold'
        (Session.used (Session.step (Session.run Session.initial evs) (Session.Destroy a)))
      = Ret second used'
      ∧ ControlManifold.getName second = default_name stateManifold
      ∧ default_name stateManifold ∈ used'.
Proof.
  intros Hlive Hname Hsame.
  assert (Hdef : default_name stateManifold' = default_name stateManifold)
    by (unfold default_name; by rewrite Hsame).
  destruct (run_inv Session.initial evs session_inv_initial) as [Huniq Hexact].
  set (s := Session.run Session.initial evs) in *.
  assert (Hin : default_name stateManifold ∈ Session.used s) by (apply Hexact; eauto).
  split; [apply constructor_registers|]. split.
  - rewrite constructor_registers, Hdef. by rewrite decide_True.
  - cbn [Session.step]. rewrite Hlive.
    unfold ControlManifold.destructor. rewrite namesList_remove.
    rewrite decide_True by (apply Hexact; eauto). cbn [Session.used].
    rewrite constructor_registers, Hdef.
    unfold ControlManifold.getName in Hname. rewrite Hname.
    rewrite decide_False
      by (rewrite elem_of_difference, elem_of_singleton; by intros [_ []]).
    eexists _, _. split; [reflexivity|]. split; [reflexivity|set_solver].
Qed.

End Construction.

(** ** The base contract *)
Section BaseContract.
Context {World double : Type}.

(** C3.  [propagate] of the base class runs the propagation function that
    [setPropagationFunction] stored, whatever else the manifold holds, and its
    outcome is the outcome of the call; with no function stored it throws
    [UnconfiguredPropagationError] and leaves the world as it is. *)
Theorem base_propagate_dispatch (this : ControlManifold.t World double)
    (fn : ControlManifold.StatePropagationFn World double)
    (state : State) (control : Control) (duration : double) (result : State) (w : World) :
  ControlManifold.propagate (ControlManifold.setPropagationFunction this (Some fn))
      state control duration result w
    = fn state control duration result w
  ∧ ControlManifold.propagate (ControlManifold.setPropagationFunction this None)
      state control duration result w
    = Throw UnconfiguredPropagationError w
  ∧ ControlManifold.propagate this state control duration result w
    = match ControlManifold.statePropagation_ this with
      | Some fn' => fn' state control duration result w
      | None => Throw UnconfiguredPropagationError w
      end.
Proof.
  repeat split; try reflexivity.
  unfold ControlManifold.propagate. by destruct (ControlManifold.statePropagation_ this).
Qed.

End BaseContract.

(** ** The compound manifold: the child list *)
Section ChildList.
Context {World double : Type}.
Implicit Types (this : CompoundControlManifold.t World double) (w : World).

Lemma u32_le (x : N) : (u32 x ≤ x)%N.
Proof. unfold u32. apply N.Div0.mod_le. Qed.

Lemma children_in_range this :
  Spec.count_cached this →
  (N.to_nat (CompoundControlManifold.componentCount_ this)
    ≤ length (CompoundControlManifold.components_ this))%nat.
Proof.
  intros Hcount. rewrite Hcount.
  pose proof (u32_le (N.of_nat (length (CompoundControlManifold.components_ this)))). lia.
Qed.

(** The invariant of the cached count is established by the constructor and
    kept by [addSubManifold] and [lock]. *)
Lemma count_cached_constructor stateManifold used this used' :
  CompoundControlManifold.constructor stateManifold used = Ret this used' →
  Spec.count_cached this.
Proof.
  unfold CompoundControlManifold.constructor, mbind, M_bind, mret, M_ret.
  destruct (ControlManifold.constructor _ _); intros; simplify_eq. reflexivity.
Qed.

Lemma count_cached_addSubManifold {S} this component (s s' : S) this' :
  CompoundControlManifold.addSubManifold this component s = Ret this' s' →
  Spec.count_cached this'.
Proof.
  unfold CompoundControlManifold.addSubManifold.
  destruct (CompoundControlManifold.locked_ this); [done|].
  open_monad. intros; simplify_eq. reflexivity.
Qed.

Lemma count_cached_lock this :
  Spec.count_cached this → Spec.count_cached (CompoundControlManifold.lock this).
Proof. done. Qed.

Lemma exec_locked (c : Calls.call World double) this (e e' : Calls.env World) this' :
  CompoundControlManifold.locked_ this = true →
  Calls.exec c this e = Ret this' e' →
  CompoundControlManifold.locked_ this' = true
  ∧ CompoundControlManifold.components_ this' = CompoundControlManifold.components_ this
  ∧ CompoundControlManifold.componentCount_ this' = CompoundControlManifold.componentCount_ this.
Proof.
  intros Hlocked. destruct c; cbn [Calls.exec].
  - unfold CompoundControlManifold.addSubManifold. by rewrite Hlocked.
  - open_monad. intros; by simplify_eq.
  - destruct (ControlManifold.setName _ _ _); intros; by simplify_eq.
  - open_monad. intros; by simplify_eq.
  - destruct (CompoundControlManifold.setup _ _); intros; by simplify_eq.
Qed.

Lemma run_locked (calls : list (Calls.call World double)) this (e e' : Calls.env World) this' :
  CompoundControlManifold.locked_ this = true →
  Calls.run calls this e = Some (this', e') →
  CompoundControlManifold.locked_ this' = true
  ∧ CompoundControlManifold.components_ this' = CompoundControlManifold.components_ this
  ∧ CompoundControlManifold.componentCount_ this' = CompoundControlManifold.componentCount_ this.
Proof.
  revert this e. induction calls as [|c calls IH]; intros this e Hlocked Hrun; cbn in Hrun.
  - by simplify_eq.
  - destruct (Calls.exec c this e) as [this1 e1|ex e1|] eqn:Hexec; [| |done].
    + destruct (exec_locked _ _ _ _ _ Hlocked Hexec) as (Hl & Hc & Hn).
      destruct (IH _ _ Hl Hrun) as (Hl' & Hc' & Hn'). by rewrite Hc', Hn'.
    + eauto.
Qed.

(** C7.  After [lock()], whatever calls follow, the manifold is still locked
    (there is no way back to Open), its child list and
    [getSubManifoldCount()] are what they were at the lock, and
    [addSubManifold] fails with [LockedManifoldError], changing nothing. *)
Theorem lock_monotonicity (calls : list (Calls.call World double))
    (this this' : CompoundControlManifold.t World double) (e e' : Calls.env World)
    (component : ControlManifoldPtr.t World double) :
  Calls.run calls (CompoundControlManifold.lock this) e = Some (this', e') →
  CompoundControlManifold.locked_ this' = true
  ∧ CompoundControlManifold.components_ this' = CompoundControlManifold.components_ this
  ∧ CompoundControlManifold.getSubManifoldCount this'
    = CompoundControlManifold.getSubManifoldCount this
  ∧ CompoundControlManifold.addSubManifold this' component e' = Throw LockedManifoldError e'
  ∧ Calls.run [Calls.AddSubManifold component] this' e' = Some (this', e').
Proof.
  intros Hrun. apply run_locked in Hrun as (Hl & Hc & Hn); [|done].
  assert (Hadd : CompoundControlManifold.addSubManifold this' component e'
                 = Throw LockedManifoldError e')
    by (unfold CompoundControlManifold.addSubManifold; by rewrite Hl).
  repeat split; try done.
  cbn. by rewrite Hadd.
Qed.

End ChildList.

(** ** The compound manifold: backward capability *)
Section Backward.
Context {World double : Type}.
Implicit Types (this : CompoundControlManifold.t World double) (w : World)
  (child : ControlManifoldPtr.t World double).

Lemma canPropagateBackward_loop_forallb this w (n : nat) (i : N) :
  (N.to_nat i + n ≤ length (CompoundControlManifold.components_ this))%nat →
  CompoundControlManifold.canPropagateBackward_loop this w n i
  = Some (forallb (λ child, ControlManifoldPtr.canPropagateBackward child w)
            (take n (drop (N.to_nat i) (CompoundControlManifold.components_ this)))).
Proof.
  revert i. induction n as [|n IH]; intros i Hle; [done|].
  cbn [CompoundControlManifold.canPropagateBackward_loop].
  destruct (lookup_lt_is_Some_2 (CompoundControlManifold.components_ this) (N.to_nat i))
    as [child Hchild]; [lia|].
  rewrite Hchild. cbn [mbind option_bind].
  rewrite (drop_S _ _ _ Hchild). cbn [take forallb].
  destruct (ControlManifoldPtr.canPropagateBackward child w); cbn [negb andb]; [|done].
  rewrite IH by lia. by replace (N.to_nat (i + 1)) with (S (N.to_nat i)) by lia.
Qed.

(** C8.  [canPropagateBackward()] of a compound manifold is the conjunction of
    what its children report in the world of the call: true exactly when every
    child reports true, and false as soon as one child reports false, whatever
    the others report.  The base class reports true. *)
Theorem backward_capability_conjunction this w (b : ControlManifold.t World double) :
  Spec.count_cached this →
  CompoundControlManifold.canPropagateBackward this w
    = Some (forallb (λ child, ControlManifoldPtr.canPropagateBackward child w)
              (Spec.children this))
  ∧ (CompoundControlManifold.canPropagateBackward this w = Some true
     ↔ ∀ child, child ∈ Spec.children this →
         ControlManifoldPtr.canPropagateBackward child w = true)
  ∧ (∀ child, child ∈ Spec.children this →
       ControlManifoldPtr.canPropagateBackward child w = false →
       CompoundControlManifold.canPropagateBackward this w = Some false)
  ∧ ControlManifold.canPropagateBackward b = true.
Proof.
  intros Hcount. apply children_in_range in Hcount.
  assert (Heq : CompoundControlManifold.canPropagateBackward this w
    = Some (forallb (λ child, ControlManifoldPtr.canPropagateBackward child w)
              (Spec.children this))).
  { unfold CompoundControlManifold.canPropagateBackward.
    rewrite canPropagateBackward_loop_forallb by (cbn; lia). done. }
  split; [exact Heq|]. rewrite Heq. split; [|split; [|done]].
  - split.
    + intros [= Hall] child Hin. rewrite forallb_forall in Hall.
      apply Hall. by apply list_elem_of_In.
    + intros Hall. f_equal. apply forallb_forall. intros child Hin.
      apply Hall. by apply list_elem_of_In.
  - intros child Hin Hfalse. f_equal. apply not_true_is_false. intros Hall.
    rewrite forallb_forall in Hall. apply list_elem_of_In, Hall in Hin. congruence.
Qed.

End Backward.

(** ** The compound manifold: propagation *)
Section Propagation.
Context {World double : Type}.
Implicit Types (this : CompoundControlManifold.t World double) (w : World).

Lemma propagate_loop_each this (cstate : list State) (ccontrol : list Control)
    (cresult : list State) (duration : double) (n : nat) (i : N) w :
  (N.to_nat i + n ≤ length (CompoundControlManifold.components_ this))%nat →
  for_loop n i (λ i,
      child ← at_index (CompoundControlManifold.components_ this) i;
      s ← at_index cstate i;
      c ← at_index ccontrol i;
      r ← at_index cresult i;
      ControlManifoldPtr.propagate child s c duration r) w
  = Spec.propagate_each
      (take n (drop (N.to_nat i) (CompoundControlManifold.components_ this)))
      (drop (N.to_nat i) cstate) (drop (N.to_nat i) ccontrol) duration
      (drop (N.to_nat i) cresult) w.
Proof.
  revert i w. induction n as [|n IH]; intros i w Hle; [done|].
  destruct (lookup_lt_is_Some_2 (CompoundControlManifold.components_ this) (N.to_nat i))
    as [child Hchild]; [lia|].
  rewrite (drop_S _ _ _ Hchild). cbn [take Spec.propagate_each].
  rewrite for_loop_run. cbn beta. step_bind. rewrite at_index_run, Hchild.
  step_bind. rewrite at_index_run.
  destruct (cstate !! N.to_nat i) as [s|] eqn:Hs;
    [rewrite (drop_S _ _ _ Hs)|by rewrite drop_ge by by apply lookup_ge_None].
  step_bind. rewrite at_index_run.
  destruct (ccontrol !! N.to_nat i) as [c|] eqn:Hc;
    [rewrite (drop_S _ _ _ Hc)|by rewrite (drop_ge ccontrol) by by apply lookup_ge_None].
  step_bind. rewrite at_index_run.
  destruct (cresult !! N.to_nat i) as [r|] eqn:Hr;
    [rewrite (drop_S _ _ _ Hr)|by rewrite (drop_ge cresult) by by apply lookup_ge_None].
  cbn iota. rewrite bind_run.
  destruct (ControlManifoldPtr.propagate child s c duration r w) as [[] w1|e w1|]; [|done..].
  rewrite IH by lia. by replace (N.to_nat (i + 1)) with (S (N.to_nat i)) by lia.
Qed.

(** C4.  With a propagation function set, [propagate] of a compound manifold
    is the call of that function and nothing else: no child is consulted,
    whatever the children and the arguments are.  With none set, it propagates
    the [i]-th sub-state, sub-control and sub-result through [children[i]],
    for [i] from [0] in order, stopping at the first child that fails. *)
Theorem compound_propagate this
    (fn : ControlManifold.StatePropagationFn World double)
    (state result : State) (control : Control)
    (states results : list State) (controls : list Control) (duration : double) w :
  Spec.count_cached this →
  CompoundControlManifold.propagate (with_propagation this (Some fn))
      state control duration result w
    = fn state control duration result w
  ∧ CompoundControlManifold.propagate (with_propagation this None)
      (CompoundState states) (CompoundControl controls) duration (CompoundState results) w
    = Spec.propagate_each (Spec.children this) states controls duration results w.
Proof.
  intros Hcount. apply children_in_range in Hcount. split; [reflexivity|].
  unfold CompoundControlManifold.propagate.
  cbn [with_propagation Calls.with_base CompoundControlManifold.base
       ControlManifold.setPropagationFunction ControlManifold.statePropagation_
       CompoundControlManifold.components_ CompoundControlManifold.componentCount_
       state_components control_components].
  do 3 step_bind.
  rewrite (propagate_loop_each this states controls results duration _ 0%N w) by (cbn; lia).
  done.
Qed.

End Propagation.

(** ** The compound manifold: copying and comparing controls *)
Section CopyEqual.
Context {World double : Type}.
Implicit Types (this : CompoundControlManifold.t World double) (w : World)
  (child : ControlManifoldPtr.t World double).

Lemma slot_exists this cs1 cs2 (i : nat) :
  length cs1 = length (Spec.children this) → length cs2 = length (Spec.children this) →
  (i < length (Spec.children this))%nat →
  ∃ child c1 c2, slot this cs1 cs2 i child c1 c2.
Proof.
  intros H1 H2 Hi.
  destruct (lookup_lt_is_Some_2 (Spec.children this) i) as [child ?]; [done|].
  destruct (lookup_lt_is_Some_2 cs1 i) as [c1 ?]; [lia|].
  destruct (lookup_lt_is_Some_2 cs2 i) as [c2 ?]; [lia|].
  by exists child, c1, c2.
Qed.

Lemma children_lookup this (i : nat) child :
  Spec.children this !! i = Some child →
  CompoundControlManifold.components_ this !! i = Some child
  ∧ (i < N.to_nat (CompoundControlManifold.componentCount_ this))%nat.
Proof.
  unfold Spec.children, CompoundControlManifold.getSubManifoldCount.
  intros H. apply lookup_take_Some in H. done.
Qed.

Lemma children_length this :
  Spec.count_cached this →
  length (Spec.children this) = N.to_nat (CompoundControlManifold.componentCount_ this).
Proof.
  intros Hcount%children_in_range.
  unfold Spec.children, CompoundControlManifold.getSubManifoldCount.
  rewrite length_take. lia.
Qed.

(** The comparison loop answers false at the first slot whose child says the
    two controls differ, and true when it gets past the last slot. *)
Lemma equalControls_loop_true this cs1 cs2 w (n : nat) (i : N) :
  (N.to_nat i + n ≤ length (Spec.children this))%nat →
  length cs1 = length (Spec.children this) → length cs2 = length (Spec.children this) →
  (∀ i' child c1 c2, (N.to_nat i ≤ i')%nat → slot this cs1 cs2 i' child c1 c2 →
     ControlManifoldPtr.equalControls child c1 c2 w = true) →
  CompoundControlManifold.equalControls_loop this cs1 cs2 w n i = Some true.
Proof.
  revert i. induction n as [|n IH]; intros i Hle H1 H2 Heq; [done|].
  destruct (slot_exists this cs1 cs2 (N.to_nat i) H1 H2) as (child & c1 & c2 & Hslot); [lia|].
  pose proof Hslot as (Hchild%children_lookup & Hc1 & Hc2).
  cbn [CompoundControlManifold.equalControls_loop].
  rewrite (proj1 Hchild), Hc1, Hc2. cbn [mbind option_bind].
  rewrite (Heq _ _ _ _ (le_n _) Hslot). cbn [negb].
  apply IH; [lia|done..|]. intros i' ch' a b Hi'. apply Heq. lia.
Qed.

Lemma equalControls_loop_false this cs1 cs2 w (n : nat) (i : N) (i' : nat) child c1 c2 :
  (N.to_nat i + n ≤ length (Spec.children this))%nat →
  length cs1 = length (Spec.children this) → length cs2 = length (Spec.children this) →
  (N.to_nat i ≤ i' < N.to_nat i + n)%nat →
  slot this cs1 cs2 i' child c1 c2 →
  ControlManifoldPtr.equalControls child c1 c2 w = false →
  CompoundControlManifold.equalControls_loop this cs1 cs2 w n i = Some false.
Proof.
  revert i. induction n as [|n IH]; intros i Hle H1 H2 Hi' Hslot' Hfalse; [lia|].
  destruct (slot_exists this cs1 cs2 (N.to_nat i) H1 H2) as (ch & a & b & Hslot); [lia|].
  pose proof Hslot as (Hchild%children_lookup & Ha & Hb).
  cbn [CompoundControlManifold.equalControls_loop].
  rewrite (proj1 Hchild), Ha, Hb. cbn [mbind option_bind].
  destruct (ControlManifoldPtr.equalControls ch a b w) eqn:Hhere; cbn [negb]; [|done].
  apply IH; [lia|done..| |done|done].
  destruct (decide (i' = N.to_nat i)) as [->|Hne]; [|lia].
  destruct Hslot as (? & ? & ?), Hslot' as (? & ? & ?). simplify_eq. congruence.
Qed.



End CopyEqual.

(** ** The compound manifold: allocation *)
Section Allocation.
Context {World double : Type}.
Implicit Types (this : CompoundControlManifold.t World double) (w : World).

Lemma allocated_length (cs : list (ControlManifoldPtr.t World double)) w slots w' :
  Spec.allocated cs w slots w' → length slots = length cs.
Proof. induction 1; cbn; congruence. Qed.

Lemma allocControl_loop_allocated this (n : nat) (i : N) (acc slots : list Control) w w' :
  (N.to_nat i + n ≤ length (CompoundControlManifold.components_ this))%nat →
  Spec.allocated (take n (drop (N.to_nat i) (CompoundControlManifold.components_ this)))
    w slots w' →
  CompoundControlManifold.allocControl_loop this n i acc w = Ret (acc ++ slots)%list w'.
Proof.
  revert i acc slots w. induction n as [|n IH]; intros i acc slots w Hle Halloc.
  - inversion Halloc; subst. cbn. by rewrite app_nil_r.
  - destruct (lookup_lt_is_Some_2 (CompoundControlManifold.components_ this) (N.to_nat i))
      as [child Hchild]; [lia|].
    rewrite (drop_S _ _ _ Hchild) in Halloc. cbn [take] in Halloc.
    inversion Halloc as [|? ? ? c w1 slots' ? Hc Hrest]; subst.
    cbn [CompoundControlManifold.allocControl_loop].
    step_bind. rewrite at_index_run, Hchild. step_bind. rewrite Hc.
    rewrite (IH (i + 1)%N (acc ++ [c])%list slots' w1); [by rewrite <- app_assoc|lia|].
    by replace (N.to_nat (i + 1)) with (S (N.to_nat i)) by lia.
Qed.

Lemma allocControl_loop_fails this (n : nat) (i : N) (acc : list Control) w
    (before : list (ControlManifoldPtr.t World double)) (slots : list Control) e w' :
  (N.to_nat i + n ≤ length (CompoundControlManifold.components_ this))%nat →
  Spec.allocation_fails
    (take n (drop (N.to_nat i) (CompoundControlManifold.components_ this)))
    w before slots e w' →
  CompoundControlManifold.allocControl_loop this n i acc w = Throw e w'.
Proof.
  revert i acc before slots w. induction n as [|n IH]; intros i acc before slots w Hle Hfail.
  - inversion Hfail.
  - destruct (lookup_lt_is_Some_2 (CompoundControlManifold.components_ this) (N.to_nat i))
      as [child Hchild]; [lia|].
    rewrite (drop_S _ _ _ Hchild) in Hfail. cbn [take] in Hfail.
    cbn [CompoundControlManifold.allocControl_loop].
    step_bind. rewrite at_index_run, Hchild. step_bind.
    inversion Hfail as [? ? ? ? ? Hc|? ? ? c w1 before' slots' ? ? Hc Hrest]; subst;
      rewrite Hc; [done|].
    apply (IH (i + 1)%N (acc ++ [c])%list before' slots' w1); [lia|].
    by replace (N.to_nat (i + 1)) with (S (N.to_nat i)) by lia.
Qed.

(** C5, as the code has it.  When every child allocates, [allocControl] returns
    a compound control of exactly [k] slots, slot [i] being what
    [children[i].allocControl()] returned, the children called in order.  When
    the [i]-th child fails, the failure reaches the caller in the world the
    failing call left: the controls allocated for the slots before [i] are
    still allocated and no [freeControl] has run. *)
Theorem allocControl_slots_and_failure this w :
  Spec.count_cached this →
  (∀ slots w', Spec.allocated (Spec.children this) w slots w' →
     CompoundControlManifold.allocControl this w = Ret (CompoundControl slots) w'
     ∧ length slots = N.to_nat (CompoundControlManifold.getSubManifoldCount this))
  ∧ (∀ before slots e w', Spec.allocation_fails (Spec.children this) w before slots e w' →
       CompoundControlManifold.allocControl this w = Throw e w').
Proof.
  intros Hcount. pose proof (children_in_range this Hcount) as Hle.
  split.
  - intros slots w' Halloc. split.
    + unfold CompoundControlManifold.allocControl. step_bind.
      by rewrite (allocControl_loop_allocated this _ 0%N [] slots w w') by (cbn; lia || done).
    + apply allocated_length in Halloc. rewrite Halloc.
      unfold Spec.children, CompoundControlManifold.getSubManifoldCount.
      rewrite length_take. lia.
  - intros before slots e w' Hfail.
    unfold CompoundControlManifold.allocControl. step_bind.
    by rewrite (allocControl_loop_fails this _ 0%N [] w before slots e w') by (cbn; lia || done).
Qed.

End Allocation.

(** ** The compound manifold: flattened value indices *)
Section FlatIndex.
Context {World double : Type}.
Implicit Types (this : CompoundControlManifold.t World double) (w : World)
  (child : ControlManifoldPtr.t World double).

Lemma u32_small (x : N) : (x ≤ UINT_MAX)%N → u32 x = x.
Proof. intros Hx. unfold u32. apply N.mod_small. unfold UINT_MAX in *. lia. Qed.

(** The inner loop on a child that exposes [n] slots, entered at local index
    [j] with the counter at [idx]: it finds the slot when fewer than [n - j]
    steps are missing, and otherwise leaves with the counter advanced by
    [n - j].  It never leaves through its loop condition and the fuel is
    enough. *)
Lemma probe_exposes child (c : Control) (n index : N) w (fuel : nat) (j idx : N) :
  Spec.exposes w child c n →
  (index ≤ UINT_MAX)%N → (idx ≤ index)%N → (j ≤ idx)%N → (j ≤ n)%N →
  (N.to_nat (index - idx) < fuel)%nat →
  CompoundControlManifold.getValueAddressAtIndex_probe child c index w fuel j idx
  = if (index - idx <? n - j)%N
    then Found <$> ControlManifoldPtr.getValueAddressAtIndex child c (j + (index - idx))%N w
    else Some (NextChild (idx + (n - j))%N).
Proof.
  intros [Hsome Hnone] Hmax. revert j idx.
  induction fuel as [|fuel IH]; intros j idx Hidx Hj Hjn Hfuel; [lia|].
  cbn [CompoundControlManifold.getValueAddressAtIndex_probe].
  rewrite (proj2 (N.leb_le j index)) by lia.
  destruct (decide (j = n)) as [->|Hne].
  - rewrite Hnone. rewrite (proj2 (N.ltb_ge _ _)) by lia. do 2 f_equal. lia.
  - destruct (Hsome j) as [va Hva]; [lia|]. rewrite Hva.
    destruct (N.eqb_spec idx index) as [->|Hlt].
    + rewrite (proj2 (N.ltb_lt _ _)) by lia.
      replace (j + (index - index))%N with j by lia. by rewrite Hva.
    + rewrite !u32_small by lia. rewrite IH by lia.
      replace (index - (idx + 1) <? n - (j + 1))%N with (index - idx <? n - j)%N
        by (destruct (N.ltb_spec (index - idx) (n - j)),
                     (N.ltb_spec (index - (idx + 1)) (n - (j + 1))); lia || done).
      replace (j + 1 + (index - (idx + 1)))%N with (j + (index - idx))%N by lia.
      replace (idx + 1 + (n - (j + 1)))%N with (idx + (n - j))%N by lia.
      done.
Qed.

(** The inner loop ends within its bound for every child, whatever slots it
    has: each turn that goes on moves the counter one closer to [index]. *)
Lemma probe_finishes child (c : Control) (index : N) w (fuel : nat) (j idx : N) :
  (index ≤ UINT_MAX)%N → (idx ≤ index)%N → (j ≤ idx)%N →
  (N.to_nat (index - idx) < fuel)%nat →
  ∃ r, CompoundControlManifold.getValueAddressAtIndex_probe child c index w fuel j idx = Some r
       ∧ match r with
         | Found _ => True
         | NextChild idx' => (idx ≤ idx' ≤ index)%N
         end.
Proof.
  intros Hmax. revert j idx.
  induction fuel as [|fuel IH]; intros j idx Hidx Hj Hfuel; [lia|].
  cbn [CompoundControlManifold.getValueAddressAtIndex_probe].
  rewrite (proj2 (N.leb_le j index)) by lia.
  destruct (ControlManifoldPtr.getValueAddressAtIndex child c j w) as [va|].
  - destruct (N.eqb_spec idx index) as [->|Hlt]; [by exists (Found va)|].
    rewrite !u32_small by lia.
    destruct (IH (j + 1)%N (idx + 1)%N) as (r & -> & Hr); [lia..|].
    exists r. split; [done|]. destruct r; [done|lia].
  - exists (NextChild idx). split; [done|lia].
Qed.

Lemma getValueAddressAtIndex_loop_finishes this (ccontrol : list Control) (index : N) w
    (n : nat) (i idx : N) :
  (index ≤ UINT_MAX)%N → (idx ≤ index)%N →
  CompoundControlManifold.getValueAddressAtIndex_loop this ccontrol index w n i idx
  ≠ Unfinished.
Proof.
  intros Hmax. revert i idx. induction n as [|n IH]; intros i idx Hidx; [done|].
  cbn [CompoundControlManifold.getValueAddressAtIndex_loop].
  destruct (CompoundControlManifold.components_ this !! N.to_nat i) as [child|]; [|done].
  destruct (ccontrol !! N.to_nat i) as [c|]; [|done].
  destruct (probe_finishes child c index w (S (S (N.to_nat index))) 0%N idx)
    as ([va|idx'] & -> & Hr); [lia..|done|].
  apply IH. lia.
Qed.

(** [getValueAddressAtIndex] returns for every 32-bit index. *)
Lemma getValueAddressAtIndex_finishes this (control : Control) (index : N) w :
  (index ≤ UINT_MAX)%N →
  CompoundControlManifold.getValueAddressAtIndex this control index w ≠ Unfinished.
Proof.
  intros Hmax. destruct control; [done|].
  apply getValueAddressAtIndex_loop_finishes; [done|lia].
Qed.

Lemma getValueAddressAtIndex_loop_flat this (ccontrol : list Control) (index : N) w
    (n : nat) (i idx : N) (counts : list N) :
  (index ≤ UINT_MAX)%N → (idx ≤ index)%N →
  (N.to_nat i + n ≤ length (CompoundControlManifold.components_ this))%nat →
  Forall3 (Spec.exposes w)
    (take n (drop (N.to_nat i) (CompoundControlManifold.components_ this)))
    (drop (N.to_nat i) ccontrol) counts →
  CompoundControlManifold.getValueAddressAtIndex_loop this ccontrol index w n i idx
  = Answer (Spec.flat_slot
              (take n (drop (N.to_nat i) (CompoundControlManifold.components_ this)))
              (drop (N.to_nat i) ccontrol) counts (index - idx)%N w).
Proof.
  intros Hmax. revert i idx counts.
  induction n as [|n IH]; intros i idx counts Hidx Hle Hall; [done|].
  destruct (lookup_lt_is_Some_2 (CompoundControlManifold.components_ this) (N.to_nat i))
    as [child Hchild]; [lia|].
  rewrite (drop_S _ _ _ Hchild) in Hall |- *. cbn [take] in Hall |- *.
  destruct (drop (N.to_nat i) ccontrol) as [|c rest] eqn:Hdrop; inversion Hall
    as [|? ? m ? ? counts' Hexp Hrest]; subst.
  assert (Hc : ccontrol !! N.to_nat i = Some c).
  { rewrite <- (Nat.add_0_r (N.to_nat i)), <- lookup_drop. by rewrite Hdrop. }
  rewrite (drop_S _ _ _ Hc) in Hdrop. injection Hdrop as <-.
  cbn [CompoundControlManifold.getValueAddressAtIndex_loop Spec.flat_slot].
  rewrite Hchild, Hc.
  rewrite (probe_exposes child c m index w _ 0%N idx Hexp) by lia.
  rewrite N.sub_0_r, N.add_0_l.
  destruct (N.ltb_spec (index - idx) m) as [Hin|Hout].
  - destruct Hexp as [Hsome _]. destruct (Hsome _ Hin) as [va Hva]. by rewrite Hva.
  - specialize (IH (i + 1)%N (idx + m)%N counts').
    replace (N.to_nat (i + 1)) with (S (N.to_nat i)) in IH by lia.
    rewrite IH by (lia || done). do 2 f_equal. lia.
Qed.

Lemma flat_slot_Some (cs : list (ControlManifoldPtr.t World double))
    (controls : list Control) (counts : list N) (flatIndex : N) w :
  Forall3 (Spec.exposes w) cs controls counts →
  (flatIndex < Spec.total_slots counts)%N →
  is_Some (Spec.flat_slot cs controls counts flatIndex w).
Proof.
  intros Hall. revert flatIndex.
  induction Hall as [|child c n cs controls counts [Hsome _] _ IH]; intros flatIndex Hlt;
    unfold Spec.total_slots in *; cbn in *; [lia|].
  destruct (N.ltb_spec flatIndex n); [by apply Hsome|apply IH; lia].
Qed.

Lemma flat_slot_None (cs : list (ControlManifoldPtr.t World double))
    (controls : list Control) (counts : list N) (flatIndex : N) w :
  (Spec.total_slots counts ≤ flatIndex)%N →
  Spec.flat_slot cs controls counts flatIndex w = None.
Proof.
  revert cs controls flatIndex.
  unfold Spec.total_slots.
  induction counts as [|n counts IH]; intros [|child cs] [|c controls] flatIndex Hle;
    cbn in *; try done.
  rewrite (proj2 (N.ltb_ge _ _)) by lia. apply IH. lia.
Qed.

(** C6.  With each child [i] exposing [counts[i]] local slots of its control,
    [getValueAddressAtIndex(control, flatIndex)] of the compound manifold
    answers with the slot at [flatIndex] of the children's slots laid end to
    end in child order, which exists when [flatIndex] is below the total, and
    with no slot when [flatIndex] is at least the total.  For three children
    exposing 2, 0 and 3 slots the flat indices 0 and 1 are the local indices 0
    and 1 of child 0, the flat indices 2, 3 and 4 are the local indices 0, 1
    and 2 of child 2, and from 5 on there is no slot.  The base class has no
    slot at any index of any control. *)
Theorem flattened_index_lookup this (controls : list Control) (counts : list N)
    (flatIndex : N) w (b : ControlManifold.t World double) (control : Control) :
  Spec.count_cached this →
  (flatIndex ≤ UINT_MAX)%N →
  Forall3 (Spec.exposes w) (Spec.children this) controls counts →
  CompoundControlManifold.getValueAddressAtIndex this (CompoundControl controls) flatIndex w
    = Answer (Spec.flat_slot (Spec.children this) controls counts flatIndex w)
  ∧ ((flatIndex < Spec.total_slots counts)%N →
       is_Some (Spec.flat_slot (Spec.children this) controls counts flatIndex w))
  ∧ ((Spec.total_slots counts ≤ flatIndex)%N →
       Spec.flat_slot (Spec.children this) controls counts flatIndex w = None)
  ∧ (∀ child0 child1 child2 c0 c1 c2,
       Spec.children this = [child0; child1; child2] → controls = [c0; c1; c2] →
       counts = [2; 0; 3]%N →
       CompoundControlManifold.getValueAddressAtIndex this (CompoundControl controls)
         flatIndex w
       = Answer (if (flatIndex <? 2)%N
                 then ControlManifoldPtr.getValueAddressAtIndex child0 c0 flatIndex w
                 else if (flatIndex <? 5)%N
                 then ControlManifoldPtr.getValueAddressAtIndex child2 c2 (flatIndex - 2)%N w
                 else None))
  ∧ ControlManifold.getValueAddressAtIndex b control flatIndex = None.
Proof.
  intros Hcount Hmax Hall. pose proof (children_in_range this Hcount) as Hle.
  assert (Hflat : CompoundControlManifold.getValueAddressAtIndex this
                    (CompoundControl controls) flatIndex w
                  = Answer (Spec.flat_slot (Spec.children this) controls counts flatIndex w)).
  { cbn [CompoundControlManifold.getValueAddressAtIndex].
    rewrite (getValueAddressAtIndex_loop_flat this controls flatIndex w _ 0%N 0%N counts);
      [by rewrite N.sub_0_r|done|lia|cbn; lia|done]. }
  split; [exact Hflat|]. split; [|split; [|split]].
  - by apply flat_slot_Some.
  - apply flat_slot_None.
  - intros child0 child1 child2 c0 c1 c2 Hcs -> ->. rewrite Hflat, Hcs. f_equal.
    cbn [Spec.flat_slot].
    destruct (N.ltb_spec flatIndex 2); [done|].
    rewrite (proj2 (N.ltb_ge (flatIndex - 2) 0)) by lia. rewrite N.sub_0_r.
    destruct (N.ltb_spec (flatIndex - 2) 3), (N.ltb_spec flatIndex 5); try lia; done.
  - reflexivity.
Qed.

End FlatIndex.

(** * Further properties of the code *)

Set Warnings "-clear-no-such-hyp".

(** ** The registry: round trips and sizes *)
Section RegistryMore.
Implicit Types (used : gset string).

(** X1.  Registering a free name and unregistering it again leaves the
    registry as it was, and so does unregistering a registered name and
    registering it again; the pair fails, without a change, exactly when its
    first call fails. *)
Theorem register_unregister_round_trip used (name : string) :
  (namesList 1 name "" ≫= λ _, namesList 2 name "") used
    = (if decide (name ∈ used) then Throw (DuplicateNameError name) used else Ret tt used)
  ∧ (namesList 2 name "" ≫= λ _, namesList 1 name "") used
    = (if decide (name ∈ used) then Ret tt used else Throw (UnknownNameError name) used).
Proof.
  split; rewrite bind_run.
  - rewrite namesList_add. destruct (decide (name ∈ used)) as [Hin|Hnin]; [done|].
    rewrite namesList_remove, decide_True by set_solver. f_equal. set_solver.
  - rewrite namesList_remove. destruct (decide (name ∈ used)) as [Hin|Hnin]; [|done].
    rewrite namesList_add, decide_False by set_solver. f_equal.
    symmetry. by apply union_difference_singleton_L.
Qed.


(** X3.  A call of [namesList] that returns changes the number of registered
    names by what its operation says: one more for an add, one less for a
    remove, and none for a replace or for any other operation code. *)
Theorem namesList_size (op : Z) (name1 name2 : string) used used' :
  namesList op name1 name2 used = Ret tt used' →
  if (op =? 1)%Z then size used' = S (size used)
  else if (op =? 2)%Z then S (size used') = size used
  else size used' = size used.
Proof.
  unfold namesList.
  destruct (op =? 1)%Z.
  { case_decide; intros; simplify_eq.
    rewrite size_union by set_solver. by rewrite size_singleton. }
  destruct (op =? 2)%Z.
  { case_decide as Hin; intros; simplify_eq.
    rewrite size_difference by set_solver. rewrite size_singleton.
    assert (size used ≠ 0%nat); [|lia].
    intros Hzero%size_empty_inv. set_solver. }
  destruct ((op =? 3)%Z && negb (String.eqb name1 name2)); [|intros; by simplify_eq].
  case_decide as Hin; [|done]. case_decide as Hnew; intros; simplify_eq.
  rewrite size_union by set_solver. rewrite size_singleton.
  rewrite size_difference by set_solver. rewrite size_singleton.
  assert (size used ≠ 0%nat); [|lia].
  intros Hzero%size_empty_inv. set_solver.
Qed.

End RegistryMore.

(** ** Sessions: what the lifecycle keeps *)
Section SessionsMore.
Context {World double : Type}.
Implicit Types (s : Session.t World double) (ev : Session.event World double).

(** X4.  In every session, the destructor of a live manifold does not throw:
    it finds the name of the manifold in the registry and removes it. *)
Theorem destructor_does_not_throw (evs : list (Session.event World double)) (this : loc)
    (obj : ControlManifold.t World double) :
  Session.live (Session.run Session.initial evs) !! this = Some obj →
  ControlManifold.destructor obj (Session.used (Session.run Session.initial evs))
  = Ret tt (Session.used (Session.run Session.initial evs) ∖ {[ControlManifold.getName obj]}).
Proof.
  intros Hobj. destruct (run_inv Session.initial evs session_inv_initial) as [_ Hexact].
  unfold ControlManifold.destructor. rewrite namesList_remove.
  by rewrite decide_True by (apply Hexact; eauto).
Qed.

(** X5.  Constructing a manifold whose default name is free and then
    destroying it gives back the session as it was, registry and objects. *)
Theorem construct_destroy_round_trip s (stateManifold : StateManifold.t) :
  default_name stateManifold ∉ Session.used s →
  Session.live (Session.step s (Session.Construct stateManifold))
    !! fresh (dom (Session.live s))
  = Some {| ControlManifold.stateManifold_ := stateManifold;
            ControlManifold.name_ := default_name stateManifold;
            ControlManifold.statePropagation_ := None |}
  ∧ Session.step (Session.step s (Session.Construct stateManifold))
      (Session.Destroy (fresh (dom (Session.live s))))
    = s.
Proof.
  intros Hfree. pose proof (fresh_not_live s) as Hfresh.
  cbn [Session.step]. rewrite constructor_registers, decide_False by done.
  cbn [Session.live Session.used]. rewrite lookup_insert_eq. split; [done|].
  unfold ControlManifold.destructor. cbn [ControlManifold.name_].
  rewrite namesList_remove, decide_True by set_solver.
  cbn [Session.live Session.used]. destruct s as [used live]. cbn in *. f_equal.
  - set_solver.
  - rewrite delete_insert_eq. by apply delete_id.
Qed.

Lemma step_size s ev :
  session_inv s → size (Session.used s) = size (Session.live s) →
  size (Session.used (Session.step s ev)) = size (Session.live (Session.step s ev)).
Proof.
  intros [Huniq Hexact] Hsize. destruct ev as [sm|this|this name|this fn]; cbn [Session.step].
  - rewrite constructor_registers. case_decide as Hin; [done|].
    cbn [Session.live Session.used].
    rewrite size_union by set_solver. rewrite size_singleton.
    rewrite map_size_insert_None by apply fresh_not_live. lia.
  - destruct (Session.live s !! this) as [obj|] eqn:Hobj; [|done].
    unfold ControlManifold.destructor. rewrite namesList_remove.
    assert (Hin : ControlManifold.name_ obj ∈ Session.used s) by (apply Hexact; eauto).
    rewrite decide_True by done. cbn [Session.live Session.used].
    rewrite size_difference by set_solver. rewrite size_singleton.
    rewrite map_size_delete_Some by eauto. lia.
  - destruct (Session.live s !! this) as [obj|] eqn:Hobj; [|done].
    rewrite setName_namesList, namesList_replace.
    assert (Hin : ControlManifold.getName obj ∈ Session.used s) by (apply Hexact; eauto).
    case_decide as Heq.
    { cbn [Session.live Session.used]. by rewrite map_size_insert_Some by eauto. }
    rewrite decide_True by done. case_decide as Hnew; [done|].
    cbn [Session.live Session.used]. rewrite map_size_insert_Some by eauto.
    rewrite size_union by set_solver. rewrite size_singleton.
    rewrite size_difference by set_solver. rewrite size_singleton.
    assert (size (Session.used s) ≠ 0%nat); [|lia].
    intros Hzero%size_empty_inv. set_solver.
  - destruct (Session.live s !! this) as [obj|] eqn:Hobj; [|done].
    cbn [Session.live Session.used]. by rewrite map_size_insert_Some by eauto.
Qed.

(** X6.  In every session there are as many registered names as live
    manifolds: no name outlives its manifold and no manifold is without a
    registered name. *)
Theorem registered_names_count (evs : list (Session.event World double)) :
  size (Session.used (Session.run Session.initial evs))
  = size (Session.live (Session.run Session.initial evs)).
Proof.
  assert (H : ∀ s, session_inv s → size (Session.used s) = size (Session.live s) →
              size (Session.used (Session.run s evs)) = size (Session.live (Session.run s evs))).
  { induction evs as [|ev evs IH]; intros s Hinv Hsize; [done|].
    cbn. apply IH; [by apply step_inv|by apply step_size]. }
  apply H; [apply session_inv_initial|]. cbn. by rewrite size_empty, map_size_empty.
Qed.

(** X7.  A construction or a rename that fails changes nothing: the session
    after a construction whose default name is taken, or after a rename of a
    live manifold to a name that is registered (its own included), is the
    session before it. *)
Theorem failed_events_change_nothing (evs : list (Session.event World double))
    (stateManifold : StateManifold.t) (this : loc) (name : string) :
  let s := Session.run Session.initial evs in
  (default_name stateManifold ∈ Session.used s →
     Session.step s (Session.Construct stateManifold) = s)
  ∧ (is_Some (Session.live s !! this) → name ∈ Session.used s →
     Session.step s (Session.SetName this name) = s).
Proof.
  intros s. destruct (run_inv Session.initial evs session_inv_initial) as [_ Hexact].
  fold s in Hexact. split.
  - intros Hin. cbn [Session.step]. rewrite constructor_registers, decide_True by done.
    by destruct s.
  - intros [obj Hobj] Hin. cbn [Session.step]. rewrite Hobj.
    rewrite setName_namesList, namesList_replace.
    case_decide as Heq.
    + assert (renamed obj name = obj) as -> by (destruct obj; cbn in *; by subst).
      rewrite insert_id by done. by destruct s.
    + rewrite decide_True by (apply Hexact; eauto). rewrite decide_True by done.
      by destruct s.
Qed.

End SessionsMore.

(** ** The compound manifold: looking children up *)
Section Children.
Context {World double : Type}.
Implicit Types (this : CompoundControlManifold.t World double) (w : World)
  (child : ControlManifoldPtr.t World double).

Lemma children_lookup_lt this (i : nat) :
  Spec.count_cached this →
  (i < N.to_nat (CompoundControlManifold.componentCount_ this))%nat →
  Spec.children this !! i = CompoundControlManifold.components_ this !! i.
Proof.
  intros _ Hi. unfold Spec.children, CompoundControlManifold.getSubManifoldCount.
  by rewrite lookup_take_lt.
Qed.

Lemma children_lookup_ge this (i : nat) :
  (N.to_nat (CompoundControlManifold.componentCount_ this) ≤ i)%nat →
  Spec.children this !! i = None.
Proof.
  intros Hi. unfold Spec.children, CompoundControlManifold.getSubManifoldCount.
  by rewrite lookup_take_ge.
Qed.

(** X8.  [getSubManifold(index)] returns the child at [index] when [index] is
    below the child count and otherwise throws "Submanifold index does not
    exist"; it never reads past the end of the child list. *)
Theorem getSubManifold_in_range {S} this (index : N) (s : S) :
  Spec.count_cached this →
  CompoundControlManifold.getSubManifold this index s
  = match Spec.children this !! N.to_nat index with
    | Some child => Ret child s
    | None => Throw (exception "Submanifold index does not exist") s
    end.
Proof.
  intros Hcount. pose proof (children_in_range this Hcount) as Hle.
  unfold CompoundControlManifold.getSubManifold.
  destruct (N.ltb_spec index (CompoundControlManifold.componentCount_ this)) as [Hlt|Hge].
  - rewrite children_lookup_lt by (done || lia). rewrite at_index_run.
    destruct (lookup_lt_is_Some_2 (CompoundControlManifold.components_ this) (N.to_nat index))
      as [child ->]; [lia|done].
  - by rewrite children_lookup_ge by lia.
Qed.

(** X9.  Adding a child to an open compound manifold that holds fewer than
    [UINT_MAX] children makes the count one more, puts the new child at the
    last index, and leaves the child at every earlier index where it was. *)
Theorem addSubManifold_then_getSubManifold {S} this child (index : N) (s : S) :
  Spec.count_cached this →
  CompoundControlManifold.locked_ this = false →
  (N.of_nat (length (CompoundControlManifold.components_ this)) < UINT_MAX)%N →
  ∃ this',
    CompoundControlManifold.addSubManifold this child s = Ret this' s
    ∧ Spec.count_cached this'
    ∧ CompoundControlManifold.getSubManifoldCount this'
      = (CompoundControlManifold.getSubManifoldCount this + 1)%N
    ∧ CompoundControlManifold.getSubManifold this'
        (CompoundControlManifold.getSubManifoldCount this) s = Ret child s
    ∧ ((index < CompoundControlManifold.getSubManifoldCount this)%N →
       CompoundControlManifold.getSubManifold this' index s
       = CompoundControlManifold.getSubManifold this index s).
Proof.
  intros Hcount Hopen Hroom.
  unfold CompoundControlManifold.addSubManifold. rewrite Hopen.
  eexists. split; [reflexivity|].
  assert (Hk : CompoundControlManifold.componentCount_ this
               = N.of_nat (length (CompoundControlManifold.components_ this))).
  { rewrite Hcount. apply u32_small. lia. }
  unfold CompoundControlManifold.getSubManifoldCount.
  cbn [CompoundControlManifold.componentCount_].
  assert (Hk' : u32 (N.of_nat (length (CompoundControlManifold.components_ this ++ [child])))
                = (CompoundControlManifold.componentCount_ this + 1)%N).
  { rewrite length_app. cbn [length]. rewrite u32_small; lia. }
  split; [reflexivity|]. split; [exact Hk'|].
  unfold CompoundControlManifold.getSubManifold.
  cbn [CompoundControlManifold.componentCount_ CompoundControlManifold.components_].
  rewrite Hk'. split.
  - rewrite (proj2 (N.ltb_lt _ _)) by lia. rewrite at_index_run.
    rewrite Hk, Nat2N.id. by rewrite list_lookup_middle.
  - intros Hlt. rewrite !(proj2 (N.ltb_lt _ _)) by lia. rewrite !at_index_run.
    by rewrite lookup_app_l by lia.
Qed.

Section Members.
Variable nameOf : ControlManifoldPtr.t World double → World → string.
Variable dimensionOf : ControlManifoldPtr.t World double → World → N.

Lemma getSubManifoldByName_loop_find this (name : string) w (n : nat) (i : N) :
  (N.to_nat i + n ≤ length (CompoundControlManifold.components_ this))%nat →
  CompoundControlManifold.getSubManifoldByName_loop nameOf this name n i w
  = match list_find (λ child, nameOf child w = name)
            (take n (drop (N.to_nat i) (CompoundControlManifold.components_ this))) with
    | Some (_, child) => Ret child w
    | None => Throw (exception ("Submanifold " ++ name ++ " does not exist")) w
    end.
Proof.
  revert i. induction n as [|n IH]; intros i Hle; [done|].
  destruct (lookup_lt_is_Some_2 (CompoundControlManifold.components_ this) (N.to_nat i))
    as [child Hchild]; [lia|].
  rewrite (drop_S _ _ _ Hchild). cbn [take list_find].
  cbn [CompoundControlManifold.getSubManifoldByName_loop].
  rewrite bind_run, at_index_run, Hchild. cbn beta iota.
  destruct (String.eqb_spec (nameOf child w) name) as [Heq|Hne].
  - by rewrite decide_True.
  - rewrite decide_False by done. rewrite IH by lia.
    replace (N.to_nat (i + 1)) with (S (N.to_nat i)) by lia.
    by destruct (list_find _ _) as [[? ?]|].
Qed.

(** X10.  [getSubManifold(name)] returns the first child, in child order,
    whose name is [name], and throws "Submanifold [name] does not exist"
    exactly when no child has that name; the world is as it was. *)
Theorem getSubManifoldByName_first this (name : string) w :
  Spec.count_cached this →
  CompoundControlManifold.getSubManifoldByName nameOf this name w
  = match list_find (λ child, nameOf child w = name) (Spec.children this) with
    | Some (_, child) => Ret child w
    | None => Throw (exception ("Submanifold " ++ name ++ " does not exist")) w
    end.
Proof.
  intros Hcount%children_in_range.
  unfold CompoundControlManifold.getSubManifoldByName.
  by rewrite getSubManifoldByName_loop_find by (cbn; lia).
Qed.

Lemma u32_add_l (a b : N) : u32 (u32 a + b) = u32 (a + b).
Proof. unfold u32. by rewrite N.Div0.add_mod_idemp_l. Qed.

Lemma u32_bound (x : N) : (u32 x ≤ UINT_MAX)%N.
Proof.
  unfold u32. pose proof (N.mod_upper_bound x (UINT_MAX + 1)). unfold UINT_MAX in *. lia.
Qed.

Lemma getDimension_loop_sum this w (n : nat) (i dim : N) :
  (N.to_nat i + n ≤ length (CompoundControlManifold.components_ this))%nat →
  (dim ≤ UINT_MAX)%N →
  CompoundControlManifold.getDimension_loop dimensionOf this w n i dim
  = Some (u32 (dim + foldr N.add 0%N
                       ((λ child, dimensionOf child w) <$>
                          take n (drop (N.to_nat i)
                                    (CompoundControlManifold.components_ this))))).
Proof.
  revert i dim. induction n as [|n IH]; intros i dim Hle Hdim.
  - cbn. by rewrite N.add_0_r, u32_small.
  - destruct (lookup_lt_is_Some_2 (CompoundControlManifold.components_ this) (N.to_nat i))
      as [child Hchild]; [lia|].
    rewrite (drop_S _ _ _ Hchild). cbn [take fmap list_fmap foldr].
    cbn [CompoundControlManifold.getDimension_loop]. rewrite Hchild. cbn [mbind option_bind].
    rewrite IH by (lia || apply u32_bound).
    replace (N.to_nat (i + 1)) with (S (N.to_nat i)) by lia.
    by rewrite u32_add_l, N.add_assoc.
Qed.

(** X11.  [getDimension()] of a compound manifold is the sum of the dimensions
    of its children as an [unsigned int]: the sum itself when that is at most
    [UINT_MAX], and the sum modulo 2^32 beyond it. *)
Theorem getDimension_additive this w :
  Spec.count_cached this →
  CompoundControlManifold.getDimension dimensionOf this w = Some (u32 (dimension_sum dimensionOf this w))
  ∧ ((dimension_sum dimensionOf this w ≤ UINT_MAX)%N →
     CompoundControlManifold.getDimension dimensionOf this w = Some (dimension_sum dimensionOf this w)).
Proof.
  intros Hcount%children_in_range.
  assert (H : CompoundControlManifold.getDimension dimensionOf this w
              = Some (u32 (dimension_sum dimensionOf this w))).
  { unfold CompoundControlManifold.getDimension.
    rewrite getDimension_loop_sum by (cbn; lia || (unfold UINT_MAX; lia)). done. }
  split; [exact H|]. intros Hsmall. by rewrite H, u32_small.
Qed.

Lemma children_after_add {S} this child (s s' : S) this' :
  Spec.count_cached this →
  (N.of_nat (length (CompoundControlManifold.components_ this)) < UINT_MAX)%N →
  CompoundControlManifold.addSubManifold this child s = Ret this' s' →
  Spec.count_cached this' ∧ Spec.children this' = (Spec.children this ++ [child])%list.
Proof.
  intros Hcount Hroom Hadd. split; [by eapply count_cached_addSubManifold|].
  unfold CompoundControlManifold.addSubManifold in Hadd.
  destruct (CompoundControlManifold.locked_ this); [done|].
  unfold mret, M_ret in Hadd. injection Hadd as <- _.
  unfold Spec.children, CompoundControlManifold.getSubManifoldCount.
  cbn [CompoundControlManifold.componentCount_ CompoundControlManifold.components_].
  rewrite Hcount, length_app. cbn [length]. rewrite !u32_small by lia.
  rewrite !firstn_all2 by (rewrite ?length_app; cbn; lia). done.
Qed.

(** X12.  For a compound manifold that holds fewer than [UINT_MAX] children,
    the dimension after a successful [addSubManifold] is the dimension before
    plus the dimension of the new child, as an [unsigned int]. *)
Theorem getDimension_after_add {S} this child (s s' : S) this' w (d : N) :
  Spec.count_cached this →
  (N.of_nat (length (CompoundControlManifold.components_ this)) < UINT_MAX)%N →
  CompoundControlManifold.addSubManifold this child s = Ret this' s' →
  CompoundControlManifold.getDimension dimensionOf this w = Some d →
  CompoundControlManifold.getDimension dimensionOf this' w
  = Some (u32 (d + dimensionOf child w)).
Proof.
  intros Hcount Hroom Hadd Hd.
  destruct (children_after_add this child s s' this' Hcount Hroom Hadd) as [Hcount' Hchildren].
  rewrite (proj1 (getDimension_additive this w Hcount)) in Hd. injection Hd as <-.
  rewrite (proj1 (getDimension_additive this' w Hcount')).
  unfold dimension_sum. rewrite Hchildren, fmap_app, foldr_app. cbn [fmap list_fmap foldr].
  rewrite u32_add_l. f_equal. f_equal.
  generalize (Spec.children this). intros l. induction l as [|c l IH]; cbn; [lia|].
  rewrite IH. fold (fmap (M:=list) (λ child0, dimensionOf child0 w) l). lia.
Qed.

End Members.

Lemma canPropagateBackward_forallb this w :
  Spec.count_cached this →
  CompoundControlManifold.canPropagateBackward this w
  = Some (forallb (λ child, ControlManifoldPtr.canPropagateBackward child w)
            (Spec.children this)).
Proof.
  intros Hcount%children_in_range. unfold CompoundControlManifold.canPropagateBackward.
  by rewrite canPropagateBackward_loop_forallb by (cbn; lia).
Qed.

(** X13.  For a compound manifold that holds fewer than [UINT_MAX] children,
    after a successful [addSubManifold] the manifold can propagate backward
    exactly when it could before and the new child can. *)
Theorem canPropagateBackward_after_add {S} this child (s s' : S) this' w (b : bool) :
  Spec.count_cached this →
  (N.of_nat (length (CompoundControlManifold.components_ this)) < UINT_MAX)%N →
  CompoundControlManifold.addSubManifold this child s = Ret this' s' →
  CompoundControlManifold.canPropagateBackward this w = Some b →
  CompoundControlManifold.canPropagateBackward this' w
  = Some (b && ControlManifoldPtr.canPropagateBackward child w).
Proof.
  intros Hcount Hroom Hadd Hb.
  destruct (children_after_add this child s s' this' Hcount Hroom Hadd) as [Hcount' Hchildren].
  rewrite canPropagateBackward_forallb in Hb by done. injection Hb as <-.
  rewrite canPropagateBackward_forallb by done. rewrite Hchildren, forallb_app.
  cbn [forallb]. by rewrite andb_true_r.
Qed.

End Children.

(** ** The compound manifold: controls *)
Section ControlsMore.
Context {World double : Type}.
Implicit Types (this : CompoundControlManifold.t World double) (w : World)
  (child : ControlManifoldPtr.t World double).

Lemma freeControl_loop_each this (ccontrol : list Control) (n : nat) (i : N) w :
  (N.to_nat i + n ≤ length (CompoundControlManifold.components_ this))%nat →
  (N.to_nat i + n ≤ length ccontrol)%nat →
  for_loop n i (λ i,
      child ← at_index (CompoundControlManifold.components_ this) i;
      c ← at_index ccontrol i;
      ControlManifoldPtr.freeControl child c) w
  = Spec.free_each (take n (drop (N.to_nat i) (CompoundControlManifold.components_ this)))
      (drop (N.to_nat i) ccontrol) w.
Proof.
  revert i w. induction n as [|n IH]; intros i w Hle Hlen; [done|].
  destruct (lookup_lt_is_Some_2 (CompoundControlManifold.components_ this) (N.to_nat i))
    as [child Hchild]; [lia|].
  destruct (lookup_lt_is_Some_2 ccontrol (N.to_nat i)) as [c Hc]; [lia|].
  rewrite (drop_S _ _ _ Hchild), (drop_S _ _ _ Hc). cbn [take Spec.free_each].
  rewrite for_loop_run. cbn beta. step_bind. rewrite at_index_run, Hchild.
  step_bind. rewrite at_index_run, Hc. cbn iota. rewrite bind_run.
  destruct (ControlManifoldPtr.freeControl child c w) as [[] w1|e w1|]; [|done..].
  rewrite IH by lia. by replace (N.to_nat (i + 1)) with (S (N.to_nat i)) by lia.
Qed.

(** X14.  Freeing what [allocControl] returned hands every slot to the child
    that allocated it, the children in order: [freeControl] on the compound
    control is the children's [freeControl]s on the slots, from the first one
    on, and ends at the first child that fails. *)
Theorem freeControl_after_allocControl this (slots : list Control) w w' :
  Spec.count_cached this →
  Spec.allocated (Spec.children this) w slots w' →
  (CompoundControlManifold.allocControl this ≫= CompoundControlManifold.freeControl this) w
  = Spec.free_each (Spec.children this) slots w'.
Proof.
  intros Hcount Halloc. pose proof (children_in_range this Hcount) as Hle.
  pose proof (allocated_length _ _ _ _ Halloc) as Hlen.
  rewrite (children_length this Hcount) in Hlen.
  rewrite bind_run. unfold CompoundControlManifold.allocControl. rewrite bind_run.
  rewrite (allocControl_loop_allocated this _ 0%N [] slots w w') by (cbn; lia || done).
  cbn [app]. rewrite ret_run. cbn iota.
  unfold CompoundControlManifold.freeControl. cbn [control_components]. step_bind.
  by rewrite (freeControl_loop_each this slots _ 0%N w') by (cbn; lia).
Qed.

Lemma allocControl_loop_defined this (n : nat) (i : N) (acc : list Control) w :
  (N.to_nat i + n ≤ length (CompoundControlManifold.components_ this))%nat →
  (∀ child w, child ∈ CompoundControlManifold.components_ this →
     ControlManifoldPtr.allocControl child w ≠ Undef) →
  CompoundControlManifold.allocControl_loop this n i acc w ≠ Undef.
Proof.
  intros Hle Hdef. revert i acc w Hle. induction n as [|n IH]; intros i acc w Hle; [done|].
  destruct (lookup_lt_is_Some_2 (CompoundControlManifold.components_ this) (N.to_nat i))
    as [child Hchild]; [lia|].
  cbn [CompoundControlManifold.allocControl_loop].
  step_bind. rewrite at_index_run, Hchild. step_bind.
  pose proof (Hdef child w (list_elem_of_lookup_2 _ _ _ Hchild)) as Hchild_def.
  destruct (ControlManifoldPtr.allocControl child w) as [c w1|e w1|]; [|done..].
  apply IH. lia.
Qed.

(** X15.  [allocControl] of a compound manifold has no undefined behaviour of
    its own: when no child's [allocControl] has any, it either returns a
    compound control or leaves with the exception of a child. *)
Theorem allocControl_defined this w :
  Spec.count_cached this →
  (∀ child w, child ∈ CompoundControlManifold.components_ this →
     ControlManifoldPtr.allocControl child w ≠ Undef) →
  CompoundControlManifold.allocControl this w ≠ Undef.
Proof.
  intros Hcount%children_in_range Hdef.
  unfold CompoundControlManifold.allocControl. rewrite bind_run.
  pose proof (allocControl_loop_defined this
                (N.to_nat (CompoundControlManifold.componentCount_ this)) 0%N [] w) as H.
  destruct (CompoundControlManifold.allocControl_loop this _ 0%N [] w); [done|done|].
  exfalso. apply H; [cbn; lia|done|done].
Qed.

Lemma equalControls_loop_sym this (c1 c2 : list Control) w (n : nat) (i : N) :
  (∀ child a b, child ∈ CompoundControlManifold.components_ this →
     ControlManifoldPtr.equalControls child a b w
     = ControlManifoldPtr.equalControls child b a w) →
  CompoundControlManifold.equalControls_loop this c1 c2 w n i
  = CompoundControlManifold.equalControls_loop this c2 c1 w n i.
Proof.
  intros Hsym. revert i. induction n as [|n IH]; intros i; [done|].
  cbn [CompoundControlManifold.equalControls_loop].
  destruct (CompoundControlManifold.components_ this !! N.to_nat i) as [child|] eqn:Hchild;
    [|done].
  cbn [mbind option_bind].
  destruct (c1 !! N.to_nat i) as [a|], (c2 !! N.to_nat i) as [b|]; cbn [mbind option_bind];
    try done.
  rewrite (Hsym child a b) by by eapply list_elem_of_lookup_2.
  by rewrite IH.
Qed.

(** X16.  When the comparison of every child is symmetric, so is the
    comparison of the compound manifold, on any two controls: the two orders
    give the same answer, undefined behaviour included. *)
Theorem equalControls_symmetric this (control1 control2 : Control) w :
  (∀ child a b, child ∈ CompoundControlManifold.components_ this →
     ControlManifoldPtr.equalControls child a b w
     = ControlManifoldPtr.equalControls child b a w) →
  CompoundControlManifold.equalControls this control1 control2 w
  = CompoundControlManifold.equalControls this control2 control1 w.
Proof.
  intros Hsym. destruct control1, control2; cbn [CompoundControlManifold.equalControls];
    try done.
  by apply equalControls_loop_sym.
Qed.

Lemma equalControls_true_slots this (c1 c2 : list Control) w :
  Spec.count_cached this → shaped this c1 → shaped this c2 →
  CompoundControlManifold.equalControls this (CompoundControl c1) (CompoundControl c2) w
    = Some true
  ↔ ∀ i child a b, slot this c1 c2 i child a b →
      ControlManifoldPtr.equalControls child a b w = true.
Proof.
  intros Hcount H1 H2. pose proof (children_length this Hcount) as Hlen.
  cbn [CompoundControlManifold.equalControls]. split.
  - intros Htrue i child a b Hslot.
    destruct (ControlManifoldPtr.equalControls child a b w) eqn:Hhere; [done|].
    rewrite (equalControls_loop_false this c1 c2 w _ 0%N i child a b) in Htrue;
      [done|lia|done|done| |done|done].
    destruct Hslot as (Hi%lookup_lt_Some & _). lia.
  - intros Hall. apply equalControls_loop_true; [lia|done..|].
    intros i child a b _. apply Hall.
Qed.

(** X17.  On controls with one slot per child the comparison of the compound
    manifold is reflexive when the comparison of each child is reflexive on
    its slot, and transitive when the comparison of each child is. *)
Theorem equalControls_reflexive_transitive this (c1 c2 c3 : list Control) w :
  Spec.count_cached this → shaped this c1 → shaped this c2 → shaped this c3 →
  ((∀ i child a, Spec.children this !! i = Some child → c1 !! i = Some a →
      ControlManifoldPtr.equalControls child a a w = true) →
   CompoundControlManifold.equalControls this (CompoundControl c1) (CompoundControl c1) w
   = Some true)
  ∧ ((∀ child a b c, child ∈ Spec.children this →
        ControlManifoldPtr.equalControls child a b w = true →
        ControlManifoldPtr.equalControls child b c w = true →
        ControlManifoldPtr.equalControls child a c w = true) →
     CompoundControlManifold.equalControls this (CompoundControl c1) (CompoundControl c2) w
     = Some true →
     CompoundControlManifold.equalControls this (CompoundControl c2) (CompoundControl c3) w
     = Some true →
     CompoundControlManifold.equalControls this (CompoundControl c1) (CompoundControl c3) w
     = Some true).
Proof.
  intros Hcount H1 H2 H3. split.
  - intros Hrefl. apply equalControls_true_slots; [done..|].
    intros i child a b (Hchild & Ha & Hb). simplify_eq. by eapply Hrefl.
  - intros Htrans H12 H23.
    rewrite equalControls_true_slots in H12, H23 by done.
    apply equalControls_true_slots; [done..|].
    intros i child a c (Hchild & Ha & Hc).
    destruct (lookup_lt_is_Some_2 c2 i) as [b Hb].
    { unfold shaped in *. apply lookup_lt_Some in Hchild. lia. }
    apply (Htrans child a b c); [by eapply list_elem_of_lookup_2|..].
    + by apply (H12 i).
    + by apply (H23 i).
Qed.

Lemma probe_found child (c : Control) (index : N) w (fuel : nat) (j idx : N) (va : address) :
  CompoundControlManifold.getValueAddressAtIndex_probe child c index w fuel j idx
    = Some (Found va) →
  ∃ j', (j' ≤ index)%N ∧ ControlManifoldPtr.getValueAddressAtIndex child c j' w = Some va.
Proof.
  revert j idx. induction fuel as [|fuel IH]; intros j idx; [done|].
  cbn [CompoundControlManifold.getValueAddressAtIndex_probe].
  destruct (N.leb_spec j index) as [Hj|Hj]; [|done].
  destruct (ControlManifoldPtr.getValueAddressAtIndex child c j w) as [va'|] eqn:Hva; [|done].
  destruct (idx =? index)%N; [|apply IH].
  intros [= <-]. eauto.
Qed.

Lemma getValueAddressAtIndex_loop_answer this (ccontrol : list Control) (index : N) w
    (n : nat) (i idx : N) :
  (index ≤ UINT_MAX)%N → (idx ≤ index)%N →
  (N.to_nat i + n ≤ length (CompoundControlManifold.components_ this))%nat →
  (N.to_nat i + n ≤ length ccontrol)%nat →
  ∃ r, CompoundControlManifold.getValueAddressAtIndex_loop this ccontrol index w n i idx
       = Answer r
       ∧ ∀ va, r = Some va →
           ∃ (i' : nat) child c j,
             CompoundControlManifold.components_ this !! i' = Some child
             ∧ (i' < N.to_nat i + n)%nat ∧ ccontrol !! i' = Some c ∧ (j ≤ index)%N
             ∧ ControlManifoldPtr.getValueAddressAtIndex child c j w = Some va.
Proof.
  intros Hmax. revert i idx. induction n as [|n IH]; intros i idx Hidx Hle Hlen.
  - exists None. by split.
  - destruct (lookup_lt_is_Some_2 (CompoundControlManifold.components_ this) (N.to_nat i))
      as [child Hchild]; [lia|].
    destruct (lookup_lt_is_Some_2 ccontrol (N.to_nat i)) as [c Hc]; [lia|].
    cbn [CompoundControlManifold.getValueAddressAtIndex_loop]. rewrite Hchild, Hc.
    destruct (probe_finishes child c index w (S (S (N.to_nat index))) 0%N idx)
      as ([va|idx'] & Hprobe & Hr); [lia..| |].
    + rewrite Hprobe. exists (Some va). split; [done|]. intros ? [= <-].
      apply probe_found in Hprobe as (j & Hj & Hva).
      exists (N.to_nat i), child, c, j. repeat split; try done. lia.
    + rewrite Hprobe. destruct (IH (i + 1)%N idx') as (r & -> & Hfrom); [lia..|].
      exists r. split; [done|]. intros va Hva.
      destruct (Hfrom va Hva) as (i' & ch & c' & j & ? & ? & ? & ? & ?).
      exists i', ch, c', j. repeat split; try done. lia.
Qed.

(** X18.  On a compound control with a slot for every child,
    [getValueAddressAtIndex] returns for every 32-bit index and whatever the
    children answer, and an address it returns is one that a child gave for
    its own slot at a local index of at most [flatIndex]. *)
Theorem getValueAddressAtIndex_from_a_child this (controls : list Control) (flatIndex : N) w :
  Spec.count_cached this →
  (length (Spec.children this) ≤ length controls)%nat →
  (flatIndex ≤ UINT_MAX)%N →
  ∃ r, CompoundControlManifold.getValueAddressAtIndex this (CompoundControl controls)
         flatIndex w = Answer r
       ∧ ∀ va, r = Some va →
           ∃ (i : nat) child c j,
             Spec.children this !! i = Some child ∧ controls !! i = Some c
             ∧ (j ≤ flatIndex)%N
             ∧ ControlManifoldPtr.getValueAddressAtIndex child c j w = Some va.
Proof.
  intros Hcount Hlen Hmax. pose proof (children_in_range this Hcount) as Hle.
  rewrite (children_length this Hcount) in Hlen.
  cbn [CompoundControlManifold.getValueAddressAtIndex].
  destruct (getValueAddressAtIndex_loop_answer this controls flatIndex w
              (N.to_nat (CompoundControlManifold.componentCount_ this)) 0%N 0%N)
    as (r & Hr & Hfrom); [done|lia|cbn; lia..|].
  exists r. split; [done|]. intros va Hva.
  destruct (Hfrom va Hva) as (i & child & c & j & Hchild & Hi & Hc & Hj & Hget).
  exists i, child, c, j. repeat split; try done.
  rewrite children_lookup_lt; [done..|]. cbn in Hi. lia.
Qed.

End ControlsMore.

(** * The theorems at work on concrete manifolds *)
Section Runs.
Import Fixture.
Local Open Scope N_scope.

Example session_construct_twice :
  Session.used (Session.run (World:=World) (double:=Z) Session.initial
                  [Session.Construct arm; Session.Construct arm])
  = {["Control[arm]"]}
  ∧ dom (Session.live (Session.run (World:=World) (double:=Z) Session.initial
                         [Session.Construct arm; Session.Construct arm]))
    = {[0%N]}.
Proof. split; by vm_compute. Qed.

Example session_rename_scenario :
  ControlManifold.setName arm_control "B" {["Control[arm]"]}
    = Ret (renamed arm_control "B") {["B"]}
  ∧ namesList 3 "C" "D" {["B"]} = Throw (UnknownNameError "C") {["B"]}.
Proof. split; by vm_compute. Qed.

Lemma construction_default_name_witness :
  Session.live (Session.run Session.initial [Session.Construct arm]) !! 0%N = Some arm_control
  ∧ ControlManifold.constructor (World:=World) (double:=Z) arm
      (Session.used (Session.run (World:=World) (double:=Z) Session.initial
                       [Session.Construct arm]))
    = Throw (DuplicateNameError (default_name arm))
        (Session.used (Session.run (World:=World) (double:=Z) Session.initial
                         [Session.Construct arm])).
Proof.
  assert (H : Session.live (Session.run Session.initial [Session.Construct arm]) !! 0%N
              = Some arm_control) by reflexivity.
  split; [exact H|].
  exact (proj1 (proj2 (construction_default_name [Session.Construct arm] arm arm 0%N
                         arm_control H eq_refl eq_refl))).
Defined.

Lemma lock_monotonicity_witness :
  Calls.run [Calls.AddSubManifold (vector_manifold 1 true); Calls.Setup]
      (CompoundControlManifold.lock two_and_one)
      at_rest
    = Some (CompoundControlManifold.lock two_and_one,
            at_rest)
  ∧ CompoundControlManifold.getSubManifoldCount (CompoundControlManifold.lock two_and_one)
    = 2%N
  ∧ CompoundControlManifold.addSubManifold (CompoundControlManifold.lock two_and_one)
      (vector_manifold 3 true) at_rest
    = Throw LockedManifoldError at_rest.
Proof.
  assert (H : Calls.run [Calls.AddSubManifold (vector_manifold 1 true); Calls.Setup]
                (CompoundControlManifold.lock two_and_one)
                at_rest
              = Some (CompoundControlManifold.lock two_and_one,
                      at_rest))
    by reflexivity.
  split; [exact H|].
  destruct (lock_monotonicity _ two_and_one _ _ _ (vector_manifold 3 true) H)
    as (_ & _ & Hcount & Hadd & _).
  split; [exact Hcount|exact Hadd].
Defined.

Lemma backward_capability_conjunction_witness :
  Spec.count_cached two_and_one
  ∧ CompoundControlManifold.canPropagateBackward two_and_one ∅ = Some false.
Proof.
  assert (H : Spec.count_cached two_and_one) by reflexivity.
  split; [exact H|].
  exact (proj1 (backward_capability_conjunction two_and_one ∅ arm_control H)).
Defined.

(** The answer follows the children from one call to the next. *)
Example backward_capability_is_not_cached :
  CompoundControlManifold.canPropagateBackward
    (compound None [vector_manifold 2 true; switchable_manifold]) ∅ = Some true
  ∧ CompoundControlManifold.canPropagateBackward
      (compound None [vector_manifold 2 true; switchable_manifold]) {[99 := []]} = Some false.
Proof. split; by vm_compute. Qed.

Lemma compound_propagate_witness :
  Spec.count_cached two_and_one
  ∧ CompoundControlManifold.propagate two_and_one
      (CompoundState [StateAt 1; StateAt 2]) (CompoundControl [ControlAt 3; ControlAt 4])
      2%Z (CompoundState [StateAt 5; StateAt 6])
      {[1%N := [10; 20]%Z; 2%N := [30]%Z; 3%N := [1; -1]%Z; 4%N := [5]%Z]}
    = Ret tt (<[6%N := [40]%Z]> (<[5%N := [12; 18]%Z]>
        {[1%N := [10; 20]%Z; 2%N := [30]%Z; 3%N := [1; -1]%Z; 4%N := [5]%Z]})).
Proof.
  assert (H : Spec.count_cached two_and_one) by reflexivity.
  split; [exact H|].
  exact (proj2 (compound_propagate two_and_one (λ _ _ _ _, mret tt)
                  (StateAt 0) (StateAt 0) (ControlAt 0)
                  [StateAt 1; StateAt 2] [StateAt 5; StateAt 6] [ControlAt 3; ControlAt 4]
                  2%Z _ H)).
Defined.





(** After the copy, a change to one slot of the source makes the controls
    compare different. *)
Example copy_then_change :
  CompoundControlManifold.copyControl two_and_one
    (CompoundControl [ControlAt 10; ControlAt 11])
    (CompoundControl [ControlAt 20; ControlAt 21])
    {[20 := [1; 2]%Z; 21 := [3]%Z]}
  = Ret tt {[10 := [1; 2]%Z; 11 := [3]%Z; 20 := [1; 2]%Z; 21 := [3]%Z]}
  ∧ CompoundControlManifold.equalControls two_and_one
      (CompoundControl [ControlAt 10; ControlAt 11])
      (CompoundControl [ControlAt 20; ControlAt 21])
      {[10 := [1; 2]%Z; 11 := [3]%Z; 20 := [1; 2]%Z; 21 := [3]%Z]} = Some true
  ∧ CompoundControlManifold.equalControls two_and_one
      (CompoundControl [ControlAt 10; ControlAt 11])
      (CompoundControl [ControlAt 20; ControlAt 21])
      {[10 := [1; 2]%Z; 11 := [3]%Z; 20 := [1; 2]%Z; 21 := [4]%Z]} = Some false.
Proof. repeat split; by vm_compute. Qed.

Lemma vector_exposes (n : N) (b : bool) (p : loc) (w : World) :
  Spec.exposes w (vector_manifold n b) (ControlAt p) n.
Proof.
  split; cbn.
  - intros j Hj. rewrite (proj2 (N.ltb_lt j n)) by done. eauto.
  - by rewrite N.ltb_irrefl.
Qed.

Lemma flattened_index_lookup_witness :
  CompoundControlManifold.getValueAddressAtIndex two_none_three
      (CompoundControl [ControlAt 7; ControlAt 8; ControlAt 9]) 3 ∅
    = Answer (Some (9, 1))
  ∧ Spec.total_slots [2; 0; 3] = 5.
Proof.
  split; [|reflexivity].
  refine (proj1 (flattened_index_lookup two_none_three
                   [ControlAt 7; ControlAt 8; ControlAt 9] [2; 0; 3] 3 ∅
                   arm_control (ControlAt 7) eq_refl _ _)).
  - by vm_compute.
  - change (Spec.children two_none_three)
      with [vector_manifold 2 true; vector_manifold 0 true; vector_manifold 3 true].
    repeat constructor; apply vector_exposes.
Defined.

(** All six flat indices of the example, on the code. *)
Example flattened_index_2_0_3 :
  map (λ flatIndex, CompoundControlManifold.getValueAddressAtIndex two_none_three
                      (CompoundControl [ControlAt 7; ControlAt 8; ControlAt 9]) flatIndex ∅)
      [0; 1; 2; 3; 4; 5]
  = [Answer (Some (7, 0)); Answer (Some (7, 1)); Answer (Some (9, 0));
     Answer (Some (9, 1)); Answer (Some (9, 2)); Answer None].
Proof. by vm_compute. Qed.

Lemma two_then_exhausted_fails :
  Spec.allocation_fails (Spec.children two_then_exhausted) ∅
    [vector_manifold 2 true] [ControlAt 0] (exception "std::bad_alloc")
    {[0 := [0; 0]%Z]}.
Proof.
  change (Spec.children two_then_exhausted)
    with [vector_manifold 2 true; exhausted_manifold].
  eapply Spec.allocation_fails_later; [by vm_compute|].
  apply Spec.allocation_fails_here. reflexivity.
Qed.

Lemma allocControl_slots_and_failure_witness :
  Spec.count_cached two_then_exhausted
  ∧ CompoundControlManifold.allocControl two_then_exhausted ∅
    = Throw (exception "std::bad_alloc") {[0 := [0; 0]%Z]}.
Proof.
  assert (H : Spec.count_cached two_then_exhausted) by reflexivity.
  split; [exact H|].
  exact (proj2 (allocControl_slots_and_failure two_then_exhausted ∅ H)
           _ _ _ _ two_then_exhausted_fails).
Defined.

(** C5, as the specification has it, fails on the code: the second child of
    [two_then_exhausted] cannot allocate, and the caller gets the failure in a
    world where the control of the first child is still allocated, not in the
    world its [freeControl] would leave. *)
Lemma allocControl_leaks_on_failure :
  ¬ Spec.frees_prior_slots_on_failure two_then_exhausted ∅.
Proof.
  intros Hfrees.
  destruct (Hfrees _ _ _ _ two_then_exhausted_fails) as (w'' & Hfree & Halloc).
  vm_compute in Hfree. vm_compute in Halloc.
  injection Hfree as <-. discriminate Halloc.
Qed.

(** What [slots_owned] is for.  Two compound controls that share a child
    control are not controls of the data model, where a control has one owner;
    on such a pair the copy into the second slot overwrites the source of the
    first, and the comparison that follows is false. *)
Example shared_slot_is_not_owned :
  CompoundControlManifold.copyControl two_and_one
    (CompoundControl [ControlAt 10; ControlAt 20])
    (CompoundControl [ControlAt 20; ControlAt 21])
    {[10 := [0; 0]%Z; 20 := [1; 2]%Z; 21 := [3]%Z]}
  = Ret tt {[10 := [1; 2]%Z; 20 := [3]%Z; 21 := [3]%Z]}
  ∧ CompoundControlManifold.equalControls two_and_one
      (CompoundControl [ControlAt 10; ControlAt 20])
      (CompoundControl [ControlAt 20; ControlAt 21])
      {[10 := [1; 2]%Z; 20 := [3]%Z; 21 := [3]%Z]} = Some false.
Proof. split; by vm_compute. Qed.




End Runs.

(** * The further properties at work on concrete manifolds *)
Section RunsMore.
Import Fixture.
Local Open Scope N_scope.

Lemma namesList_size_witness :
  namesList 1 "a" "" ∅ = Ret tt {["a"]} ∧ size ({["a"]} : gset string) = S (size (∅ : gset string)).
Proof.
  split; [reflexivity|]. exact (namesList_size 1 "a" "" ∅ {["a"]} eq_refl).
Defined.

Lemma destructor_does_not_throw_witness :
  ControlManifold.destructor arm_control
    (Session.used (Session.run (World:=World) (double:=Z) Session.initial
                     [Session.Construct arm]))
  = Ret tt (Session.used (Session.run (World:=World) (double:=Z) Session.initial
                            [Session.Construct arm])
            ∖ {[ControlManifold.getName arm_control]}).
Proof.
  exact (destructor_does_not_throw [Session.Construct arm] 0 arm_control eq_refl).
Defined.

Lemma construct_destroy_round_trip_witness :
  Session.step (Session.step (World:=World) (double:=Z) Session.initial
                  (Session.Construct arm))
    (Session.Destroy (fresh (dom (Session.live (World:=World) (double:=Z) Session.initial))))
  = Session.initial.
Proof.
  exact (proj2 (construct_destroy_round_trip Session.initial arm (not_elem_of_empty _))).
Defined.

Lemma getSubManifold_in_range_witness :
  CompoundControlManifold.getSubManifold two_and_one 1 tt = Ret (vector_manifold 1 false) tt
  ∧ CompoundControlManifold.getSubManifold two_and_one 2 tt
    = Throw (exception "Submanifold index does not exist") tt.
Proof.
  split.
  - exact (getSubManifold_in_range two_and_one 1 tt eq_refl).
  - exact (getSubManifold_in_range two_and_one 2 tt eq_refl).
Defined.

Lemma addSubManifold_then_getSubManifold_witness :
  ∃ this',
    CompoundControlManifold.addSubManifold two_and_one (vector_manifold 3 true) tt
      = Ret this' tt
    ∧ CompoundControlManifold.getSubManifoldCount this' = 3
    ∧ CompoundControlManifold.getSubManifold this' 2 tt = Ret (vector_manifold 3 true) tt.
Proof.
  destruct (addSubManifold_then_getSubManifold two_and_one (vector_manifold 3 true) 0 tt
              eq_refl eq_refl eq_refl) as (this' & Hadd & _ & Hcount & Hlast & _).
  exists this'. split; [exact Hadd|]. split; [exact Hcount|exact Hlast].
Defined.

Lemma getSubManifoldByName_first_witness :
  CompoundControlManifold.getSubManifoldByName name_by_direction two_and_one
    "irreversible" ∅ = Ret (vector_manifold 1 false) ∅
  ∧ CompoundControlManifold.getSubManifoldByName name_by_direction two_and_one
      "gear" ∅ = Throw (exception "Submanifold gear does not exist") ∅.
Proof.
  split.
  - exact (getSubManifoldByName_first name_by_direction two_and_one "irreversible" ∅ eq_refl).
  - exact (getSubManifoldByName_first name_by_direction two_and_one "gear" ∅ eq_refl).
Defined.

Lemma getDimension_additive_witness :
  CompoundControlManifold.getDimension dimension_by_slots two_and_one ∅ = Some 3.
Proof.
  exact (proj1 (getDimension_additive dimension_by_slots two_and_one ∅ eq_refl)).
Defined.

Lemma getDimension_after_add_witness :
  CompoundControlManifold.getDimension dimension_by_slots two_one_three ∅ = Some 6.
Proof.
  exact (getDimension_after_add dimension_by_slots two_and_one (vector_manifold 3 true)
           tt tt two_one_three ∅ 3 eq_refl eq_refl eq_refl eq_refl).
Defined.

Lemma canPropagateBackward_after_add_witness :
  CompoundControlManifold.canPropagateBackward two_one_three ∅ = Some false.
Proof.
  exact (canPropagateBackward_after_add two_and_one (vector_manifold 3 true)
           tt tt two_one_three ∅ false eq_refl eq_refl eq_refl eq_refl).
Defined.

Lemma two_and_one_allocated :
  Spec.allocated (Spec.children two_and_one) ∅ [ControlAt 0; ControlAt 1]
    {[0 := [0; 0]%Z; 1 := [0]%Z]}.
Proof.
  change (Spec.children two_and_one)
    with [vector_manifold 2 true; vector_manifold 1 false].
  eapply Spec.allocated_cons; [by vm_compute|].
  eapply Spec.allocated_cons; [by vm_compute|].
  apply Spec.allocated_nil.
Qed.

Lemma freeControl_after_allocControl_witness :
  (CompoundControlManifold.allocControl two_and_one
     ≫= CompoundControlManifold.freeControl two_and_one) ∅
  = Ret tt ∅.
Proof.
  exact (freeControl_after_allocControl two_and_one _ ∅ _ eq_refl two_and_one_allocated).
Defined.

Lemma fixture_allocControl_defined (child : child_t) (w : World) :
  child ∈ CompoundControlManifold.components_ two_then_exhausted →
  ControlManifoldPtr.allocControl child w ≠ Undef.
Proof.
  change (CompoundControlManifold.components_ two_then_exhausted)
    with [vector_manifold 2 true; exhausted_manifold].
  intros [->|[->|[]%elem_of_nil]%elem_of_cons]%elem_of_cons; done.
Qed.

Lemma allocControl_defined_witness :
  CompoundControlManifold.allocControl two_then_exhausted ∅ ≠ Undef.
Proof.
  exact (allocControl_defined two_then_exhausted ∅ eq_refl fixture_allocControl_defined).
Defined.

Lemma vector_equal_sym (n : N) (b : bool) (x y : Control) (w : World) :
  ControlManifoldPtr.equalControls (vector_manifold n b) x y w
  = ControlManifoldPtr.equalControls (vector_manifold n b) y x w.
Proof.
  destruct x as [px|], y as [py|]; cbn; try done.
  apply bool_decide_ext. split; by intros ->.
Qed.

Lemma two_and_one_equal_sym (child : child_t) (x y : Control) (w : World) :
  child ∈ CompoundControlManifold.components_ two_and_one →
  ControlManifoldPtr.equalControls child x y w = ControlManifoldPtr.equalControls child y x w.
Proof.
  change (CompoundControlManifold.components_ two_and_one)
    with [vector_manifold 2 true; vector_manifold 1 false].
  intros [->|[->|[]%elem_of_nil]%elem_of_cons]%elem_of_cons; apply vector_equal_sym.
Qed.

Lemma equalControls_symmetric_witness :
  CompoundControlManifold.equalControls two_and_one
    (CompoundControl [ControlAt 10; ControlAt 11]) (CompoundControl [ControlAt 20; ControlAt 21])
    {[10 := [1; 2]%Z; 20 := [1; 2]%Z; 21 := [3]%Z]}
  = CompoundControlManifold.equalControls two_and_one
      (CompoundControl [ControlAt 20; ControlAt 21]) (CompoundControl [ControlAt 10; ControlAt 11])
      {[10 := [1; 2]%Z; 20 := [1; 2]%Z; 21 := [3]%Z]}.
Proof.
  exact (equalControls_symmetric two_and_one _ _ _
           (λ child x y, two_and_one_equal_sym child x y _)).
Defined.

Lemma two_and_one_equal_refl (i : nat) (child : child_t) (x : Control) (w : World) :
  Spec.children two_and_one !! i = Some child →
  [ControlAt 20; ControlAt 21] !! i = Some x →
  ControlManifoldPtr.equalControls child x x w = true.
Proof.
  change (Spec.children two_and_one)
    with [vector_manifold 2 true; vector_manifold 1 false].
  destruct i as [|[|i]]; cbn; intros; simplify_eq; cbn; by apply bool_decide_eq_true.
Qed.

Lemma equalControls_reflexive_transitive_witness :
  CompoundControlManifold.equalControls two_and_one
    (CompoundControl [ControlAt 20; ControlAt 21]) (CompoundControl [ControlAt 20; ControlAt 21])
    ∅ = Some true.
Proof.
  exact (proj1 (equalControls_reflexive_transitive two_and_one
                  [ControlAt 20; ControlAt 21] [ControlAt 20; ControlAt 21]
                  [ControlAt 20; ControlAt 21] ∅ eq_refl eq_refl eq_refl eq_refl)
           (λ i child x, two_and_one_equal_refl i child x ∅)).
Defined.

Lemma getValueAddressAtIndex_from_a_child_witness :
  ∃ r, CompoundControlManifold.getValueAddressAtIndex two_none_three
         (CompoundControl [ControlAt 7; ControlAt 8; ControlAt 9]) 3 ∅ = Answer r.
Proof.
  destruct (getValueAddressAtIndex_from_a_child two_none_three
              [ControlAt 7; ControlAt 8; ControlAt 9] 3 ∅ eq_refl) as (r & Hr & _).
  - vm_compute. lia.
  - by vm_compute.
  - exists r. exact Hr.
Defined.

End RunsMore.
